(** * The recommendation and difficulty-adaptation engine of the platform

    A shallow embedding of [ai_engine/difficulty_adjuster.py],
    [ai_engine/recommendation.py], [ai_engine/adapter.py],
    [ai_engine/content_generator.py] and [ai_engine/utils.py], followed by
    the properties of the engine.

    Conventions.
    - A Python [str] is a [string]; its characters are read as code points
      below 256.
    - A Python [int] is a [Z].  A Python [float] that holds a percentage, an
      average or a ratio is a [Q]: every finite double is a rational, and
      the comparisons the code makes ([>= 75], [>= 0.7], [round]) agree with
      the exact ones for any table of fewer than 10^15 rows.  A [float]
      that a function returns is the double itself, as [to_double] rounds
      it.
    - A function that can raise returns an [outcome]; [try ... except] is
      [try_except]. *)

From Stdlib Require Import QArith Ascii.
From stdpp Require Import gmap strings list sorting pretty.

Open Scope Z_scope.

(** ** Python values, exceptions and a few builtins *)
Module Py.

Inductive exn_class :=
| DoesNotExist | MultipleObjectsReturned | OperationalError | DatabaseError
| ValueError | TypeError | KeyError | IndexError | AttributeError
| ZeroDivisionError | JSONDecodeError | RequestException | HTTPError.

(** An exception object: its class and the text [str(e)] gives. *)
Record exn := Exn { exn_cls : exn_class; exn_str : string }.

Inductive outcome (A : Type) :=
| Ok (a : A)
| Raise (e : exn).
Arguments Ok {A} a.
Arguments Raise {A} e.

#[global] Instance outcome_ret : MRet outcome := λ A a, Ok a.
#[global] Instance outcome_bind : MBind outcome := λ A B k m,
  match m with
  | Ok a => k a
  | Raise e => Raise e
  end.

(** [try: body except Exception as e: handler e] *)
Definition try_except {A} (body : outcome A) (handler : exn → outcome A)
  : outcome A :=
  match body with
  | Ok a => Ok a
  | Raise e => handler e
  end.

Definition raise {A} (c : exn_class) (msg : string) : outcome A :=
  Raise (Exn c msg).

(** [str.isspace] on one character, which is also the class [\s] of [re]
    for [str] patterns. *)
Definition isspace (c : ascii) : bool :=
  let n := N_of_ascii c in
  ((9 <=? n) && (n <=? 13) || (28 <=? n) && (n <=? 32)
   || (n =? 133) || (n =? 160))%N.

Fixpoint lstrip (s : string) : string :=
  match s with
  | String c s' => if isspace c then lstrip s' else s
  | EmptyString => EmptyString
  end.

Fixpoint rstrip (s : string) : string :=
  match s with
  | String c s' =>
      match rstrip s' with
      | EmptyString => if isspace c then EmptyString else String c EmptyString
      | r => String c r
      end
  | EmptyString => EmptyString
  end.

(** [s.strip()] *)
Definition strip (s : string) : string := rstrip (lstrip s).

Definition lower_char (c : ascii) : ascii :=
  let n := N_of_ascii c in
  if ((65 <=? n) && (n <=? 90)
      || (192 <=? n) && (n <=? 222) && negb (n =? 215))%N
  then ascii_of_N (n + 32) else c.

(** [s.lower()] *)
Fixpoint lower (s : string) : string :=
  match s with
  | String c s' => String (lower_char c) (lower s')
  | EmptyString => EmptyString
  end.

(** Truth value of a [str]: only the empty string is false. *)
Definition truthy (s : string) : bool :=
  match s with
  | EmptyString => false
  | String _ _ => true
  end.

(** [round(x)] with one argument: to the nearest integer, a tie going to
    the even neighbour. *)
Definition round (x : Q) : Z :=
  let n := Qnum x in
  let d := Z.pos (Qden x) in
  let fl := n `div` d in
  match (2 * (n `mod` d)) ?= d with
  | Lt => fl
  | Gt => fl + 1
  | Eq => if Z.even fl then fl else fl + 1
  end.

(** [a / b] on two [int]s. *)
Definition truediv (a b : Z) : outcome Q :=
  if b =? 0 then raise ZeroDivisionError "division by zero"
  else Ok (Qmake a 1 / Qmake b 1)%Q.

(** A [float] is a double, held as the rational it stands for.  [Qshift q k]
    is [q * 2^k]. *)
Definition Qshift (q : Q) (k : Z) : Q :=
  (if 0 <=? k then q * inject_Z (2 ^ k) else q / inject_Z (2 ^ (- k)))%Q.

(** The [k] with [2^k <= q < 2^(k+1)], for a positive [q]. *)
Definition Qlog2 (q : Q) : Z :=
  let k := Z.log2 (Qnum q) - Z.log2 (Z.pos (Qden q)) in
  if Qle_bool 1 (Qshift q (- k)) then k else k - 1.

(** The double nearest to [q]: [q] rounded to 53 significant bits, a tie
    going to the even significand.  This is the rounding of every
    operation on doubles, for a positive [q] in the range of the normal
    doubles; zero is a double. *)
Definition to_double (q : Q) : Q :=
  if Qle_bool q 0 then 0%Q
  else
    let e := Qlog2 q - 52 in
    Qred (Qshift (inject_Z (round (Qshift q (- e)))) e).

(** [float(n)] on a positive [int], which is what an operation between a
    [float] and an [int] does to the [int]. *)
Definition float_of_int (n : Z) : Q := to_double (inject_Z n).

(** [a / b] on two positive [float]s. *)
Definition float_truediv (a b : Q) : Q := to_double (a / b)%Q.

(** [str(n)] on an [int]. *)
Definition str_int (n : Z) : string := pretty n.

End Py.
Export Py.

(** ** The tables of [core/models.py] the engine reads *)
Module Models.

Record User := {
  user_pk : Z;
  user_age_group_id : option Z            (* null=True *)
}.

Record Content := {
  content_pk : Z;
  title : string;
  description : string;
  age_group_id : Z;
  content_type : string;
  difficulty_base : Z;
  created_at : Z                          (* microseconds *)
}.

Record UserProgress := {
  progress_user_id : Z;
  progress_content_id : option Z;         (* null=True *)
  completion_percentage : Q
}.

(** The database a call sees.  [unavailable k] tells whether the [k]-th
    round trip of the call fails, in which case the ORM raises
    [OperationalError]. *)
Record Database := {
  users : list User;
  contents : list Content;
  progresses : list UserProgress;
  unavailable : nat → bool
}.

(** [qs.exists()] on the rows a query set selects. *)
Definition nonempty {A} (rows : list A) : bool :=
  match rows with
  | [] => false
  | _ :: _ => true
  end.

(** One round trip: the rows are only obtained when the database answers. *)
Definition round_trip {A} (db : Database) (k : nat) (rows : A) : outcome A :=
  if unavailable db k then raise OperationalError "database is unavailable"
  else Ok rows.

(** [Model.objects.get(id=pk)] *)
Definition objects_get {A} (model : string) (pk_of : A → Z)
    (db : Database) (k : nat) (table : list A) (pk : Z) : outcome A :=
  rows ← round_trip db k (List.filter (λ r, pk_of r =? pk) table);
  match rows with
  | [] => raise DoesNotExist (model +:+ " matching query does not exist.")
  | [r] => Ok r
  | _ :: _ :: _ =>
      raise MultipleObjectsReturned
        ("get() returned more than one " +:+ model)
  end.

(** [UserProgress.objects.filter(user_id=..., completion_percentage__gte=...)],
    a lazy query set; the second condition is optional. *)
Definition UserProgress_filter (db : Database) (user_id : Z)
    (gte : option Q) : list UserProgress :=
  List.filter
    (λ p, (progress_user_id p =? user_id)
          && match gte with
             | Some q => Qle_bool q (completion_percentage p)
             | None => true
             end)
    (progresses db).

(** [qs.filter(completion_percentage__gte=q)] on such a query set. *)
Definition filter_completion_gte (q : Q) (qs : list UserProgress)
  : list UserProgress :=
  List.filter (λ p, Qle_bool q (completion_percentage p)) qs.

(** The [content__difficulty_base] column of a progress row: the outer
    join gives NULL when the row has no content. *)
Definition content__difficulty_base (db : Database) (p : UserProgress)
  : option Z :=
  cid ← progress_content_id p;
  difficulty_base <$> head (List.filter (λ c, content_pk c =? cid) (contents db)).

(** SQL [AVG]: NULLs are skipped; NULL when nothing is left. *)
Definition Avg (column : list (option Z)) : option Q :=
  match omap id column with
  | [] => None
  | v :: vs =>
      Some (Qmake (foldr Z.add 0 (v :: vs)) (Pos.of_nat (length (v :: vs))))
  end.

End Models.
Export Models.

(** ** [ai_engine/difficulty_adjuster.py] *)
Module DifficultyAdjuster.

(** The body of the [try] of [get_appropriate_difficulty_level]. *)
Definition difficulty_level_body (db : Database) (user_id : Z) : outcome Z :=
  let completed_progress := UserProgress_filter db user_id (Some 75%Q) in
  (* completed_progress.exists() *)
  has ← round_trip db 0 (nonempty completed_progress);
  if negb has then Ok 1 else
  (* completed_progress.aggregate(avg_diff=Avg(...))['avg_diff'] or 1 *)
  avg_diff ← round_trip db 1
    (Avg (content__difficulty_base db <$> completed_progress));
  let avg_difficulty :=
    match avg_diff with
    | Some a => if Qeq_bool a 0 then 1%Q else a
    | None => 1%Q
    end in
  let recommended_difficulty := 1 `max` (5 `min` round avg_difficulty) in
  high ← round_trip db 2
    (Z.of_nat (length (filter_completion_gte 90%Q completed_progress)));
  total ← round_trip db 3 (Z.of_nat (length completed_progress));
  ratio ← truediv high total;
  let high_performance := Qle_bool (7 # 10) ratio in
  if high_performance
  then Ok (5 `min` (recommended_difficulty + 1))
  else Ok recommended_difficulty.

Definition get_appropriate_difficulty_level (db : Database) (user_id : Z)
  : outcome Z :=
  try_except (difficulty_level_body db user_id) (λ e, Ok 1).

End DifficultyAdjuster.
Export DifficultyAdjuster.

(** ** [ai_engine/recommendation.py] *)
Module Recommendation.

(** A row of the annotated query: the content and its two scores. *)
Record Annotated := {
  item : Content;
  in_progress : Z;
  relevance_score : Z
}.

(** One entry of the returned list. *)
Record Entry := {
  entry_content_id : Z;
  entry_title : string;
  entry_content_type : string;
  entry_difficulty : Z;
  entry_relevance_score : Z
}.

(** SQL [x IN (subquery)]: true when a row equals [x], unknown when none
    does and the subquery has a NULL, false otherwise. *)
Definition sql_in (x : Z) (subquery : list (option Z)) : option bool :=
  if existsb (λ v, match v with Some y => x =? y | None => false end) subquery
  then Some true
  else if existsb (λ v, match v with Some _ => false | None => true end)
            subquery
  then None
  else Some false.

(** [.values_list('content_id', flat=True)] *)
Definition values_list_content_id (qs : list UserProgress)
  : list (option Z) :=
  progress_content_id <$> qs.

(** [Content.objects.filter(age_group_id=g)]; with [None] the ORM asks for
    [age_group_id IS NULL], which no row of this table satisfies. *)
Definition filter_age_group (g : option Z) (rows : list Content)
  : list Content :=
  match g with
  | Some g => List.filter (λ c, age_group_id c =? g) rows
  | None => []
  end.

(** [if content_type: query = query.filter(content_type=content_type)] *)
Definition filter_content_type (t : option string) (rows : list Content)
  : list Content :=
  match t with
  | Some t =>
      if truthy t then List.filter (λ c, String.eqb (content_type c) t) rows
      else rows
  | None => rows
  end.

(** [query.exclude(id__in=ids)]: a row stays when [NOT (id IN ids)] is
    true. *)
Definition exclude_id_in (ids : list (option Z)) (rows : list Content)
  : list Content :=
  List.filter
    (λ c, match sql_in (content_pk c) ids with
          | Some false => true
          | _ => false
          end)
    rows.

(** [.annotate(in_progress=Case(When(id__in=viewed, then=10), default=0),
              relevance_score=Case(When(difficulty_base__lte=3, then=5),
                                   default=1))] *)
Definition annotate (viewed : list (option Z)) (c : Content) : Annotated :=
  {| item := c;
     in_progress :=
       match sql_in (content_pk c) viewed with
       | Some true => 10
       | _ => 0
       end;
     relevance_score := if difficulty_base c <=? 3 then 5 else 1 |}.

(** [.order_by('-in_progress', '-relevance_score', 'difficulty_base',
               '-created_at')]: [rank_le a b] says that [a] may come before
    [b]. *)
Definition rank_le (a b : Annotated) : Prop :=
  in_progress b < in_progress a ∨
  (in_progress a = in_progress b ∧
   (relevance_score b < relevance_score a ∨
    (relevance_score a = relevance_score b ∧
     (difficulty_base (item a) < difficulty_base (item b) ∨
      (difficulty_base (item a) = difficulty_base (item b) ∧
       created_at (item b) ≤ created_at (item a)))))).

#[global] Instance rank_le_dec a b : Decision (rank_le a b).
Proof. unfold rank_le. apply _. Defined.

(** [qs[:count]] on a query set, which runs no query: the database sees
    the count in [fetch_sliced]. *)
Definition slice_to {A} (count : Z) (rows : list A) : outcome (list A) :=
  if count <? 0 then raise ValueError "Negative indexing is not supported."
  else Ok (take (Z.to_nat count) rows).

(** The largest [LIMIT] the database takes, a signed 64-bit integer. *)
Definition LIMIT_MAX : Z := 2 ^ 63 - 1.

(** The loop over a sliced query set runs the query, in round trip [k],
    with [LIMIT count]; the database refuses a limit above [LIMIT_MAX],
    with a text of its own. *)
Definition fetch_sliced {A} (db : Database) (k : nat) (count : Z)
    (rows : list A) : outcome (list A) :=
  rows ← round_trip db k rows;
  if LIMIT_MAX <? count then raise DatabaseError "bigint out of range"
  else Ok (rows : list A).

Definition format_entry (a : Annotated) : Entry :=
  {| entry_content_id := content_pk (item a);
     entry_title := title (item a);
     entry_content_type := content_type (item a);
     entry_difficulty := difficulty_base (item a);
     entry_relevance_score := relevance_score a + in_progress a |}.

(** The rows of the annotated query of a user whose age group is [g],
    before [order_by]. *)
Definition annotated_query (db : Database) (user_id : Z) (g : option Z)
    (content_type : option string) : list Annotated :=
  let completed_content_ids :=
    values_list_content_id (UserProgress_filter db user_id (Some 80%Q)) in
  let viewed_content_ids :=
    values_list_content_id (UserProgress_filter db user_id None) in
  let query := filter_age_group g (contents db) in
  let query := filter_content_type content_type query in
  let query := exclude_id_in completed_content_ids query in
  annotate viewed_content_ids <$> query.

(** The ranked rows of a user whose age group is [g]. *)
Definition ranked (db : Database) (user_id : Z) (g : option Z)
    (content_type : option string) : list Annotated :=
  merge_sort rank_le (annotated_query db user_id g content_type).

(** The body of the [try] of [get_personalized_recommendations]. *)
Definition recommendations_body (db : Database) (user_id count : Z)
    (content_type : option string) : outcome (list Entry) :=
  user ← objects_get "User" user_pk db 0 (users db) user_id;
  let age_group_id := user_age_group_id user in
  let recommended_content := ranked db user_id age_group_id content_type in
  (* the slice is taken on the lazy query set, the rows are fetched by the
     loop *)
  recommendations ← slice_to count recommended_content;
  rows ← fetch_sliced db 1 count recommendations;
  Ok (format_entry <$> (rows : list Annotated)).

Definition get_personalized_recommendations (db : Database)
    (user_id count : Z) (content_type : option string)
  : outcome (list Entry) :=
  try_except (recommendations_body db user_id count content_type)
    (λ e, match exn_cls e with
          | DoesNotExist => Ok []
          | _ => Ok []
          end).

End Recommendation.
Export Recommendation.

(** ** [ai_engine/adapter.py] *)
Module Adapter.

(** A decoded JSON document, which is also what a Python [dict] of the
    engine holds. *)
#[local] Set Warnings "-register-all".
Inductive JSON :=
| JNull
| JBool (b : bool)
| JInt (n : Z)
| JNum (q : Q)
| JStr (s : string)
| JArr (items : list JSON)
| JObj (fields : list (string * JSON)).

(** What [requests.post(url, headers=..., json=...)] is called with. *)
Record Request := {
  url : string;
  headers : list (string * string);
  json : JSON
}.

(** What the transport does with a request: [requests.post] raises, or a
    response comes back; its body is [None] when it is not JSON. *)
Inductive Response :=
| NoResponse (why : string)
| HttpResponse (status_code : Z) (body : option JSON).

Definition Network : Type := Request → Response.

Definition requests_post (net : Network) (r : Request)
  : outcome (Z * option JSON) :=
  match net r with
  | NoResponse why => raise RequestException why
  | HttpResponse status body => Ok (status, body)
  end.

(** [response.raise_for_status()] *)
Definition raise_for_status (response : Z * option JSON) : outcome () :=
  if (400 <=? response.1) && (response.1 <? 600)
  then raise HTTPError (str_int response.1 +:+ " Error")
  else Ok ().

(** [response.json()] *)
Definition response_json (response : Z * option JSON) : outcome JSON :=
  match response.2 with
  | Some doc => Ok doc
  | None => raise JSONDecodeError "Expecting value"
  end.

(** [d.get(k)] on a Python [dict], which keeps its items in the order they
    were put in. *)
Fixpoint assoc (k : string) (fields : list (string * JSON)) : option JSON :=
  match fields with
  | [] => None
  | (k', v) :: rest => if String.eqb k k' then Some v else assoc k rest
  end.

(** [v[k]] with a [str] key. *)
Definition getitem (v : JSON) (k : string) : outcome JSON :=
  match v with
  | JObj fields =>
      match assoc k fields with
      | Some x => Ok x
      | None => raise KeyError k
      end
  | _ => raise TypeError "indices must be integers"
  end.

(** [v[0]] *)
Definition getitem0 (v : JSON) : outcome JSON :=
  match v with
  | JArr (x :: _) => Ok x
  | JArr [] => raise IndexError "list index out of range"
  | JStr (String c _) => Ok (JStr (String c EmptyString))
  | JStr EmptyString => raise IndexError "string index out of range"
  | JObj _ => raise KeyError "0"
  | _ => raise TypeError "object is not subscriptable"
  end.

(** [v.strip()] *)
Definition json_strip (v : JSON) : outcome string :=
  match v with
  | JStr s => Ok (strip s)
  | _ => raise AttributeError "object has no attribute 'strip'"
  end.

Inductive adapter_class :=
| OpenAIAdapter | CohereAdapter | AnthropicAdapter
| HuggingFaceInferenceAPIAdapter | HuggingFaceAdapter | MockAdapter.

#[global] Instance adapter_class_eq_dec : EqDecision adapter_class.
Proof. solve_decision. Defined.

(** [cls.__name__] *)
Definition class_name (c : adapter_class) : string :=
  match c with
  | OpenAIAdapter => "OpenAIAdapter"
  | CohereAdapter => "CohereAdapter"
  | AnthropicAdapter => "AnthropicAdapter"
  | HuggingFaceInferenceAPIAdapter => "HuggingFaceInferenceAPIAdapter"
  | HuggingFaceAdapter => "HuggingFaceAdapter"
  | MockAdapter => "MockAdapter"
  end.

(** An adapter object: its class, [self.api_key] and [self.model]
    ([self.model_id] for the Hugging Face classes). *)
Record ModelAdapter := {
  adapter_cls : adapter_class;
  api_key : string;
  model : string
}.

(** [isinstance(adapter, cls)]; no adapter class derives from another. *)
Definition isinstance (adapter : ModelAdapter) (c : adapter_class) : bool :=
  bool_decide (adapter_cls adapter = c).

(** What the source does not give: [generate_text] of an adapter of class
    [HuggingFaceAdapter] or [MockAdapter], two classes the source declares
    without a body, and two builtins, [str] on a decoded JSON value and
    [json.loads] on a text that [json.dumps] did not produce here. *)
Record Externals := {
  HuggingFaceAdapter_generate_text : string → string → Z → Q → outcome string;
  MockAdapter_generate_text : string → Z → Q → outcome string;
  py_str : JSON → string;
  json_loads_text : string → outcome (list (string * JSON))
}.

Definition unavailable_text : string :=
  "I couldn't generate a response at this time.".

Definition bearer (adapter : ModelAdapter) : string * string :=
  ("Authorization", "Bearer " +:+ api_key adapter).

Definition OpenAI_generate_text (net : Network) (self : ModelAdapter)
    (prompt : string) (max_tokens : Z) (temperature : Q) : outcome string :=
  let headers := [("Content-Type", "application/json"); bearer self] in
  let payload :=
    JObj [("model", JStr (model self));
          ("messages",
           JArr [JObj [("role", JStr "user"); ("content", JStr prompt)]]);
          ("max_tokens", JInt max_tokens);
          ("temperature", JNum temperature)] in
  try_except
    (response ← requests_post net
       {| url := "https://api.openai.com/v1/chat/completions";
          headers := headers; json := payload |};
     _ ← raise_for_status response;
     result ← response_json response;
     choices ← getitem result "choices";
     choice ← getitem0 choices;
     message ← getitem choice "message";
     content ← getitem message "content";
     json_strip content)
    (λ e, Ok unavailable_text).

Definition Cohere_generate_text (net : Network) (self : ModelAdapter)
    (prompt : string) (max_tokens : Z) (temperature : Q) : outcome string :=
  let headers := [("Content-Type", "application/json"); bearer self] in
  let payload :=
    JObj [("model", JStr (model self));
          ("prompt", JStr prompt);
          ("max_tokens", JInt max_tokens);
          ("temperature", JNum temperature)] in
  try_except
    (response ← requests_post net
       {| url := "https://api.cohere.ai/v1/generate";
          headers := headers; json := payload |};
     _ ← raise_for_status response;
     result ← response_json response;
     generations ← getitem result "generations";
     generation ← getitem0 generations;
     text ← getitem generation "text";
     json_strip text)
    (λ e, Ok unavailable_text).

Definition newline : string := String (ascii_of_N 10) EmptyString.

Definition Anthropic_generate_text (net : Network) (self : ModelAdapter)
    (prompt : string) (max_tokens : Z) (temperature : Q) : outcome string :=
  let headers :=
    [("Content-Type", "application/json");
     ("x-api-key", api_key self);
     ("anthropic-version", "2023-06-01")] in
  let payload :=
    JObj [("model", JStr (model self));
          ("prompt",
           JStr (newline +:+ newline +:+ "Human: " +:+ prompt
                 +:+ newline +:+ newline +:+ "Assistant:"));
          ("max_tokens_to_sample", JInt max_tokens);
          ("temperature", JNum temperature)] in
  try_except
    (response ← requests_post net
       {| url := "https://api.anthropic.com/v1/complete";
          headers := headers; json := payload |};
     _ ← raise_for_status response;
     result ← response_json response;
     completion ← getitem result "completion";
     json_strip completion)
    (λ e, Ok unavailable_text).

Definition HuggingFaceInferenceAPI_generate_text (ext : Externals)
    (net : Network) (self : ModelAdapter)
    (prompt : string) (max_tokens : Z) (temperature : Q) : outcome string :=
  let headers := [bearer self] in
  let payload :=
    JObj [("inputs", JStr prompt);
          ("parameters",
           JObj [("max_new_tokens", JInt max_tokens);
                 ("temperature", JNum temperature);
                 ("return_full_text", JBool false)])] in
  try_except
    (response ← requests_post net
       {| url := "https://api-inference.huggingface.co/models/"
                 +:+ model self;
          headers := headers; json := payload |};
     _ ← raise_for_status response;
     result ← response_json response;
     match result with
     | JArr (first :: _) =>
         match first with
         | JObj fields =>
             match assoc "generated_text" fields with
             | Some text => json_strip text
             | None => Ok (strip (py_str ext first))
             end
         | _ => Ok (strip (py_str ext first))
         end
     | _ => Ok (strip (py_str ext result))
     end)
    (λ e, Ok unavailable_text).

(** [adapter.generate_text(prompt, max_tokens, temperature)], by the class
    of the adapter. *)
Definition generate_text (ext : Externals) (net : Network)
    (self : ModelAdapter) (prompt : string) (max_tokens : Z)
    (temperature : Q) : outcome string :=
  match adapter_cls self with
  | OpenAIAdapter => OpenAI_generate_text net self prompt max_tokens temperature
  | CohereAdapter => Cohere_generate_text net self prompt max_tokens temperature
  | AnthropicAdapter =>
      Anthropic_generate_text net self prompt max_tokens temperature
  | HuggingFaceInferenceAPIAdapter =>
      HuggingFaceInferenceAPI_generate_text ext net self prompt max_tokens
        temperature
  | HuggingFaceAdapter =>
      HuggingFaceAdapter_generate_text ext (model self) prompt max_tokens
        temperature
  | MockAdapter => MockAdapter_generate_text ext prompt max_tokens temperature
  end.

(** [settings.AI_ENGINE]; a key that is not set is [None]. *)
Record Settings := {
  ADAPTER_TYPE : option string;
  MODEL_NAME : option string;
  API_KEY : option string
}.

(** The constructor of a class that reads its key from [os.environ]. *)
Definition init_with_key (c : adapter_class) (variable provider : string)
    (environ : gmap string string) (model : string) : outcome ModelAdapter :=
  match environ !! variable with
  | Some key =>
      if truthy key
      then Ok {| adapter_cls := c; api_key := key; model := model |}
      else raise ValueError (provider +:+ " API key not found")
  | None => raise ValueError (provider +:+ " API key not found")
  end.

(** A call of [HuggingFaceAdapter] or of [MockAdapter] with the keyword
    arguments [kwargs]: the two classes are declared with a docstring
    only, so that they have no [__init__] and keep the two abstract
    methods of [ModelAdapter]; [object.__new__] refuses keyword arguments
    first, and an abstract class next. *)
Definition init_abstract (c : adapter_class) (kwargs : option string)
  : outcome ModelAdapter :=
  match kwargs with
  | Some _ => raise TypeError (class_name c +:+ "() takes no arguments")
  | None =>
      raise TypeError
        ("Can't instantiate abstract class " +:+ class_name c
         +:+ " with abstract methods classify_content, generate_text")
  end.

(** [get_model_adapter(adapter_type, **kwargs)], where [kwargs] holds at
    most the model name, under the key the class expects. *)
Definition get_model_adapter (environ : gmap string string)
    (adapter_type : string) (model_name : option string)
  : outcome ModelAdapter :=
  let t := lower adapter_type in
  if String.eqb t "openai" then
    init_with_key OpenAIAdapter "OPENAI_API_KEY" "OpenAI" environ
      (default "gpt-3.5-turbo" model_name)
  else if String.eqb t "cohere" then
    init_with_key CohereAdapter "COHERE_API_KEY" "Cohere" environ
      (default "command" model_name)
  else if String.eqb t "anthropic" then
    init_with_key AnthropicAdapter "ANTHROPIC_API_KEY" "Anthropic" environ
      (default "claude-2" model_name)
  else if String.eqb t "huggingface_api" then
    init_with_key HuggingFaceInferenceAPIAdapter "HF_API_KEY" "Hugging Face"
      environ (default "gpt2" model_name)
  else if String.eqb t "huggingface" then
    init_abstract HuggingFaceAdapter model_name
  else if String.eqb t "mock" then
    init_abstract MockAdapter model_name
  else
    init_abstract MockAdapter model_name.

(** The part of the process that [get_current_adapter] reads and writes:
    [os.environ] and the module global [_current_adapter]. *)
Record Process := {
  environ : gmap string string;
  _current_adapter : option ModelAdapter
}.

(** The environment variable that [get_current_adapter] fills from
    [API_KEY], if the adapter type has one. *)
Definition key_variable (adapter_type : string) : option string :=
  let t := lower adapter_type in
  if String.eqb t "openai" then Some "OPENAI_API_KEY"
  else if String.eqb t "cohere" then Some "COHERE_API_KEY"
  else if String.eqb t "anthropic" then Some "ANTHROPIC_API_KEY"
  else if String.eqb t "huggingface" || String.eqb t "huggingface_api"
  then Some "HF_API_KEY"
  else None.

(** A text holds the character NUL. *)
Fixpoint has_nul (s : string) : bool :=
  match s with
  | String c s' => Ascii.eqb c (ascii_of_N 0) || has_nul s'
  | EmptyString => false
  end.

(** [os.environ[variable] = value], which passes the value to [putenv]:
    a value that holds a NUL is refused. *)
Definition environ_setitem (variable value : string)
    (environ : gmap string string) : outcome (gmap string string) :=
  if has_nul value then raise ValueError "embedded null byte"
  else Ok (<[variable := value]> environ).

(** The [model_kwargs] that [get_current_adapter] builds. *)
Definition model_kwargs (adapter_type : string) (model_name : option string)
  : option string :=
  match model_name with
  | Some name =>
      if truthy name
      then match key_variable adapter_type with
           | Some _ => Some name
           | None => None
           end
      else None
  | None => None
  end.

Definition get_current_adapter (ext : Externals) (settings : Settings)
    (p : Process) : outcome ModelAdapter * Process :=
  match _current_adapter p with
  | Some adapter => (Ok adapter, p)
  | None =>
      let adapter_type := default "mock" (ADAPTER_TYPE settings) in
      let kwargs := model_kwargs adapter_type (MODEL_NAME settings) in
      let written :=
        match API_KEY settings with
        | Some key =>
            if truthy key
            then match key_variable adapter_type with
                 | Some variable => environ_setitem variable key (environ p)
                 | None => Ok (environ p)
                 end
            else Ok (environ p)
        | None => Ok (environ p)
        end in
      match written with
      | Raise e => (Raise e, p)
      | Ok environ' =>
          match get_model_adapter environ' adapter_type kwargs with
          | Ok adapter =>
              (Ok adapter,
               {| environ := environ'; _current_adapter := Some adapter |})
          | Raise e =>
              (Raise e, {| environ := environ'; _current_adapter := None |})
          end
      end
  end.

End Adapter.
Export Adapter.

(** ** [ai_engine/content_generator.py] *)
Module ContentGenerator.

Definition CACHE_DURATION : Z := 86400.

(** A [str] held by the cache: a text, or [json.dumps(d)] kept as the
    dictionary it encodes. *)
Inductive pystr :=
| Text (s : string)
| Dumped (d : list (string * JSON)).

Definition pystr_truthy (v : pystr) : bool :=
  match v with
  | Text s => truthy s
  | Dumped _ => true
  end.

(** [json.dumps(d)] and [json.loads(v)] *)
Definition json_dumps (d : list (string * JSON)) : pystr := Dumped d.
Definition json_loads (ext : Externals) (v : pystr)
  : outcome (list (string * JSON)) :=
  match v with
  | Dumped d => Ok d
  | Text s => json_loads_text ext s
  end.

(** [x] when [if x:] holds, for an optional [x]. *)
Definition when_truthy {A} (t : A → bool) (x : option A) : option A :=
  match x with
  | Some v => if t v then Some v else None
  | None => None
  end.

(** The file [curated_content/explanations.json]. *)
Record CuratedItem := {
  item_concept : option string;
  item_theme : option string;
  item_age_group : option string;
  item_explanation : option string
}.

Inductive ExplanationsFile :=
| NoFile
| Unreadable
| Document (explanations : option (list CuratedItem)).

(** What a call reads and does not change: the clock, the settings, the
    database, the transport, the curated file and the [Externals]. *)
Record Env := {
  now : Z;
  settings : Settings;
  db : Database;
  net : Network;
  explanations_file : ExplanationsFile;
  ext : Externals
}.

(** What a call can change: the cache, whose entries carry the time they
    expire at, and the [Process].  [generate_text_calls] records the
    prompts [generate_text] was called with. *)
Record State := {
  cache : gmap string (pystr * Z);
  process : Process;
  generate_text_calls : list string
}.

Definition M (A : Type) : Type := State → outcome A * State.

Definition ret {A} (a : A) : M A := λ s, (Ok a, s).
Definition bind {A B} (m : M A) (k : A → M B) : M B :=
  λ s, match m s with
       | (Ok a, s') => k a s'
       | (Raise e, s') => (Raise e, s')
       end.
Definition lift {A} (o : outcome A) : M A := λ s, (o, s).

Notation "'do' x <- m ; k" := (bind m (λ x, k))
  (at level 10, x name, m at level 100, k at level 200,
   format "'[v' 'do'  x  <-  m ; '/' k ']'").

(** [cache.get(key)]: an entry is there until its time has come. *)
Definition cache_get (env : Env) (s : State) (key : string) : option pystr :=
  match cache s !! key with
  | Some (v, expiry) => if now env <? expiry then Some v else None
  | None => None
  end.

(** [cache.set(key, value, timeout)] *)
Definition cache_set (env : Env) (key : string) (value : pystr)
    (timeout : Z) : M () :=
  λ s, (Ok (),
        {| cache := <[key := (value, now env + timeout)]> (cache s);
           process := process s;
           generate_text_calls := generate_text_calls s |}).

(** [get_current_adapter()] *)
Definition current_adapter (env : Env) : M ModelAdapter :=
  λ s, let '(r, p) := get_current_adapter (ext env) (settings env) (process s)
       in (r, {| cache := cache s; process := p;
                 generate_text_calls := generate_text_calls s |}).

(** [adapter.generate_text(prompt=..., max_tokens=..., temperature=...)] *)
Definition adapter_generate_text (env : Env) (adapter : ModelAdapter)
    (prompt : string) (max_tokens : Z) (temperature : Q) : M string :=
  λ s, (generate_text (ext env) (net env) adapter prompt max_tokens
          temperature,
        {| cache := cache s; process := process s;
           generate_text_calls := generate_text_calls s ++ [prompt] |}).

(** [f"{x}"] for an optional text. *)
Definition format_optional (x : option string) : string :=
  default "None" x.

Definition get (field : option string) : string := default "" field.

(** [_get_curated_explanation(concept, theme, age_group)] *)
Definition matching (concept theme : string) (age_group : option string)
    (item : CuratedItem) : bool :=
  String.eqb (lower (get (item_concept item))) (lower concept)
  && String.eqb (get (item_theme item)) theme
  && match age_group with
     | None => true
     | Some g => String.eqb (get (item_age_group item)) g
     end.

Definition _get_curated_explanation (file : ExplanationsFile)
    (concept theme : string) (age_group : option string) : option string :=
  match file with
  | NoFile => None
  | Unreadable => None
  | Document explanations =>
      match List.find (matching concept theme age_group)
              (default [] explanations) with
      | Some item => Some (get (item_explanation item))
      | None => None
      end
  end.

Definition explanation_cache_key (concept theme : string)
    (age_group : option string) : string :=
  "themed_explanation:" +:+ concept +:+ ":" +:+ theme +:+ ":"
  +:+ format_optional age_group.

Definition explanation_prompt (concept theme : string)
    (age_group base_explanation : option string) : string :=
  let age_context :=
    match when_truthy truthy age_group with
    | Some g => " for " +:+ g
    | None => ""
    end in
  let prompt :=
    newline
    +:+ "    Please explain the programming concept of '" +:+ concept
    +:+ "' using a " +:+ theme +:+ " theme" +:+ age_context +:+ "."
    +:+ newline
    +:+ "    Make it engaging, visual, and easy to understand." +:+ newline
    +:+ "    Use metaphors related to " +:+ theme
    +:+ " to make the concept relatable." +:+ newline
    +:+ "    " in
  match when_truthy truthy base_explanation with
  | Some b =>
      prompt +:+ newline +:+ newline
      +:+ "Here's a basic explanation to enhance: " +:+ b
  | None => prompt
  end.

(** The [try] of [generate_themed_explanation]. *)
Definition generate_explanation (env : Env) (cache_key prompt : string)
  : M pystr :=
  do adapter <- current_adapter env;
  do explanation <- adapter_generate_text env adapter prompt 400 (7 # 10);
  do _ <- cache_set env cache_key (Text explanation) CACHE_DURATION;
  ret (Text explanation).

Definition generate_themed_explanation (env : Env) (concept theme : string)
    (age_group base_explanation : option string) (s : State)
  : pystr * State :=
  let cache_key := explanation_cache_key concept theme age_group in
  match when_truthy pystr_truthy (cache_get env s cache_key) with
  | Some cached_result => (cached_result, s)
  | None =>
    match when_truthy truthy
            (_get_curated_explanation (explanations_file env) concept theme
               age_group) with
    | Some curated_explanation =>
        (Text curated_explanation,
         (cache_set env cache_key (Text curated_explanation) CACHE_DURATION
            s).2)
    | None =>
        let prompt :=
          explanation_prompt concept theme age_group base_explanation in
        match generate_explanation env cache_key prompt s with
        | (Ok explanation, s') => (explanation, s')
        | (Raise e, s') =>
            (Text
               match when_truthy truthy base_explanation with
               | Some b => b
               | None =>
                   "Sorry, I couldn't generate a " +:+ theme
                   +:+ "-themed explanation for " +:+ concept
                   +:+ " right now."
               end,
             s')
        end
    end
  end.

(** The class [[:\s]] of the two patterns. *)
Definition colon_or_space (c : ascii) : bool :=
  Ascii.eqb c ":" || isspace c.

Fixpoint skip_colons_and_spaces (s : string) : string :=
  match s with
  | String c s' => if colon_or_space c then skip_colons_and_spaces s' else s
  | EmptyString => EmptyString
  end.

(** What the group takes: the rest of the line, or with [re.DOTALL] the
    rest of the text. *)
Fixpoint rest_of_line (s : string) : string :=
  match s with
  | String c s' =>
      if Ascii.eqb c (ascii_of_N 10) then EmptyString
      else String c (rest_of_line s')
  | EmptyString => EmptyString
  end.

Fixpoint after_prefix (label s : string) : option string :=
  match label, s with
  | EmptyString, _ => Some s
  | String a label', String b s' =>
      if Ascii.eqb a b then after_prefix label' s' else None
  | String _ _, EmptyString => None
  end.

(** The pattern, [label], then one or more of [[:\s]], then the group,
    matched at the start of [s]: group 1. *)
Definition match_label_here (label : string) (dotall : bool) (s : string)
  : option string :=
  match after_prefix label s with
  | Some (String c rest) =>
      if colon_or_space c
      then let rest := skip_colons_and_spaces rest in
           Some (if dotall then rest else rest_of_line rest)
      else None
  | _ => None
  end.

(** [re.search(pattern, s, flags)]: group 1 of the leftmost match. *)
Fixpoint re_search_label (label : string) (dotall : bool) (s : string)
  : option string :=
  match match_label_here label dotall s with
  | Some group => Some group
  | None =>
      match s with
      | String _ s' => re_search_label label dotall s'
      | EmptyString => None
      end
  end.

Definition adapted_cache_key (content_id target_difficulty : Z) : string :=
  "adapted_content:" +:+ str_int content_id +:+ ":"
  +:+ str_int target_difficulty.

Definition adaptation_prompt (content : Content) (target_difficulty : Z)
  : string :=
  let change_direction :=
    if target_difficulty <? difficulty_base content
    then "simpler" else "more complex" in
  newline
  +:+ "        Original content: " +:+ title content +:+ newline
  +:+ "        Description: " +:+ description content +:+ newline
  +:+ "        Current difficulty level: "
  +:+ str_int (difficulty_base content) +:+ " (out of 5)" +:+ newline
  +:+ "        " +:+ newline
  +:+ "        Please adapt this content to make it " +:+ change_direction
  +:+ ", at a difficulty level of " +:+ str_int target_difficulty
  +:+ " out of 5." +:+ newline
  +:+ "        Preserve the main learning objectives but adjust the"
  +:+ " complexity accordingly." +:+ newline
  +:+ "        Return the content as a title and description only."
  +:+ newline
  +:+ "        ".

Definition unchanged_result (content : Content)
  : list (string * JSON) :=
    [("title", JStr (title content));
     ("description", JStr (description content));
     ("difficulty", JInt (difficulty_base content));
     ("adapted", JBool false)].

Definition adapted_result (content : Content) (target_difficulty : Z)
    (adaptation : string) : list (string * JSON) :=
  let adapted_title :=
    default (title content) (re_search_label "Title" false adaptation) in
  let adapted_description :=
    default adaptation (re_search_label "Description" true adaptation) in
    [("title", JStr adapted_title);
     ("description", JStr adapted_description);
     ("original_difficulty", JInt (difficulty_base content));
     ("target_difficulty", JInt target_difficulty);
     ("adapted", JBool true)].

Definition error_result (e : exn) (original_title : string)
  : list (string * JSON) :=
    [("error", JStr ("Could not adapt content: " +:+ exn_str e));
     ("original_title", JStr original_title);
     ("adapted", JBool false)].

(** The [try] of [adapt_content_difficulty] once [content] is bound. *)
Definition adapt_content (env : Env) (content : Content)
    (content_id target_difficulty : Z) : M (list (string * JSON)) :=
  λ s,
  let cache_key := adapted_cache_key content_id target_difficulty in
  match when_truthy pystr_truthy (cache_get env s cache_key) with
  | Some cached_result => lift (json_loads (ext env) cached_result) s
  | None =>
      if difficulty_base content =? target_difficulty then
        let result := unchanged_result content in
        (do _ <- cache_set env cache_key (json_dumps result) CACHE_DURATION;
         ret result) s
      else
        let prompt := adaptation_prompt content target_difficulty in
        (do adapter <- current_adapter env;
         do adaptation <- adapter_generate_text env adapter prompt 300
                            (4 # 10);
         let result := adapted_result content target_difficulty adaptation in
         do _ <- cache_set env cache_key (json_dumps result) CACHE_DURATION;
         ret result) s
  end.

Definition adapt_content_difficulty (env : Env) (content_id : Z)
    (user_id : option Z) (target_difficulty : Z) (s : State)
  : list (string * JSON) * State :=
  match objects_get "Content" content_pk (db env) 0 (contents (db env))
          content_id with
  | Raise e => (error_result e "Unknown", s)
  | Ok content =>
      match adapt_content env content content_id target_difficulty s with
      | (Ok result, s') => (result, s')
      | (Raise e, s') => (error_result e (title content), s')
      end
  end.

End ContentGenerator.
Export ContentGenerator.

(** ** [ai_engine/utils.py] *)
Module Utils.

(** [add_curated_explanation(concept, theme, age_group, explanation)]: the
    flag it returns and the file it leaves. *)
Definition add_curated_explanation (file : ExplanationsFile)
    (concept theme age_group explanation : string)
  : bool * ExplanationsFile :=
  match file with
  | Document (Some explanations) =>
      (true,
       Document
         (Some (explanations
                ++ [ {| item_concept := Some concept;
                        item_theme := Some theme;
                        item_age_group := Some age_group;
                        item_explanation := Some explanation |} ])))
  | _ => (false, file)
  end.

(** The names that are bound at the top level of [utils.py], which is what
    [globals()] holds in [get_model_info]; the import in the body of
    [get_model_info] binds a local name. *)
Definition utils_globals : list string :=
  [ "__name__"; "__doc__"; "__package__"; "__loader__"; "__spec__";
    "__file__"; "__cached__"; "__builtins__";
    "Dict"; "Any"; "List"; "Optional"; "os"; "json"; "logging"; "logger";
    "initialize_curated_content"; "add_curated_explanation";
    "add_curated_hint"; "get_model_info" ].

Record ModelInfo := {
  adapter_type : string;
  is_mock : bool;
  status : string
}.

Definition get_model_info (env : Env) : M ModelInfo :=
  do adapter <- current_adapter env;
  ret {| adapter_type := class_name (adapter_cls adapter);
         is_mock :=
           if bool_decide ("MockAdapter" ∈ utils_globals)
           then isinstance adapter MockAdapter
           else false;
         status := "active" |}.

End Utils.
Export Utils.

(** ** Python dictionaries with text keys *)
Module Dict.

(** [d.get(k)] *)
Fixpoint dict_get {A} (k : string) (d : list (string * A)) : option A :=
  match d with
  | [] => None
  | (k', v) :: rest => if String.eqb k k' then Some v else dict_get k rest
  end.

(** [d[k] = v]: the value of a key that is there is replaced where it is,
    a new key goes to the end. *)
Fixpoint dict_set {A} (k : string) (v : A) (d : list (string * A))
  : list (string * A) :=
  match d with
  | [] => [(k, v)]
  | (k', v') :: rest =>
      if String.eqb k k' then (k, v) :: rest
      else (k', v') :: dict_set k v rest
  end.

(** [{key: value for key in keys}] *)
Definition dict_comprehension {A} (keys : list string) (value : A)
  : list (string * A) :=
  fold_left (λ d k, dict_set k value d) keys [].

End Dict.
Export Dict.

(** ** Hints: [generate_hint] and [_get_curated_hint] of
    [content_generator.py], [add_curated_hint] and
    [initialize_curated_content] of [utils.py] *)
Module Hints.

(** The columns of [Challenge] that the hints read. *)
Record Challenge := {
  challenge_pk : Z;
  problem_statement : string;
  expected_output : string
}.

(** The file [curated_content/hints.json]: when it is a document, it maps
    the text of a challenge id to a map from the text of a level to a
    hint, which is what [add_curated_hint] writes. *)
Inductive HintsFile :=
| NoHintsFile
| UnreadableHints
| HintsDocument (hints : list (string * list (string * string))).

(** [_get_curated_hint(challenge_id, hint_level)] *)
Definition _get_curated_hint (file : HintsFile) (challenge_id hint_level : Z)
  : option string :=
  match file with
  | HintsDocument content =>
      let challenge_hints :=
        default [] (dict_get (str_int challenge_id) content) in
      dict_get (str_int hint_level) challenge_hints
  | _ => None
  end.

(** [add_curated_hint(challenge_id, hint_level, hint_text)]: the flag it
    returns and the file it leaves. *)
Definition add_curated_hint (file : HintsFile) (challenge_id hint_level : Z)
    (hint_text : string) : bool * HintsFile :=
  match file with
  | HintsDocument content =>
      let content :=
        match dict_get (str_int challenge_id) content with
        | Some _ => content
        | None => dict_set (str_int challenge_id) [] content
        end in
      let hints := default [] (dict_get (str_int challenge_id) content) in
      (true,
       HintsDocument
         (dict_set (str_int challenge_id)
            (dict_set (str_int hint_level) hint_text hints) content))
  | _ => (false, file)
  end.

(** [initialize_curated_content()] on the two files: a file that is not
    there is created with nothing in it, a file that is there is left as it
    is. *)
Definition initialize_curated_content
    (files : ExplanationsFile * HintsFile) : ExplanationsFile * HintsFile :=
  (match files.1 with
   | NoFile => Document (Some [])
   | file => file
   end,
   match files.2 with
   | NoHintsFile => HintsDocument []
   | file => file
   end).

Definition hint_cache_key (challenge_id hint_level : Z) : string :=
  "hint:" +:+ str_int challenge_id +:+ ":" +:+ str_int hint_level.

Definition personalized_prompt (challenge : Challenge)
    (user_attempt : string) (hint_level : Z) : string :=
  newline
  +:+ "            Problem: " +:+ problem_statement challenge +:+ newline
  +:+ "            " +:+ newline
  +:+ "            Expected Output: " +:+ expected_output challenge
  +:+ newline
  +:+ "            " +:+ newline
  +:+ "            User's current code attempt:" +:+ newline
  +:+ "            " +:+ user_attempt +:+ newline
  +:+ "            " +:+ newline
  +:+ "            Provide a hint at level " +:+ str_int hint_level
  +:+ " (1=subtle, 3=more specific) to help the user solve this problem."
  +:+ newline
  +:+ "            Don't give the direct answer, just guide them in the"
  +:+ " right direction." +:+ newline
  +:+ "            ".

Definition generic_prompt (challenge : Challenge) (hint_level : Z)
  : string :=
  newline
  +:+ "        Problem: " +:+ problem_statement challenge +:+ newline
  +:+ "        " +:+ newline
  +:+ "        Provide a hint at level " +:+ str_int hint_level
  +:+ " (1=subtle, 3=more specific) to help solve this problem."
  +:+ newline
  +:+ "        Don't give the direct answer, just guide the user in the"
  +:+ " right direction." +:+ newline
  +:+ "        ".

Definition fallback_hint : string :=
  "Try thinking about the problem step by step. What is the first thing you need to do?".

(** The first [try]: the hint for the attempt of the user.  The challenge
    is fetched by the [k]-th round trip of the call. *)
Definition personalized_hint (env : Env) (challenges : list Challenge)
    (challenge_id : Z) (user_attempt : string) (hint_level : Z) (k : nat)
  : M string :=
  do challenge <- lift (objects_get "Challenge" challenge_pk (db env) k
                          challenges challenge_id);
  do adapter <- current_adapter env;
  adapter_generate_text env adapter
    (personalized_prompt challenge user_attempt hint_level) 200 (5 # 10).

(** The second [try]: the hint for the challenge alone. *)
Definition generic_hint (env : Env) (challenges : list Challenge)
    (challenge_id : Z) (user_attempt : string) (hint_level : Z) (k : nat)
  : M string :=
  do challenge <- lift (objects_get "Challenge" challenge_pk (db env) k
                          challenges challenge_id);
  do adapter <- current_adapter env;
  do hint <- adapter_generate_text env adapter
               (generic_prompt challenge hint_level) 150 (5 # 10);
  do _ <- (if truthy user_attempt then ret ()
           else cache_set env (hint_cache_key challenge_id hint_level)
                  (Text hint) CACHE_DURATION);
  ret hint.

(** [x and not user_attempt], for an optional [x] that is truthy. *)
Definition and_not {A} (x : option A) (user_attempt : string) : option A :=
  if truthy user_attempt then None else x.

Definition generate_hint (env : Env) (file : HintsFile)
    (challenges : list Challenge) (challenge_id : Z) (user_id : option Z)
    (user_attempt : string) (hint_level : Z) (s : State) : pystr * State :=
  let cache_key := hint_cache_key challenge_id hint_level in
  let generic (k : nat) (s : State) : pystr * State :=
    match generic_hint env challenges challenge_id user_attempt hint_level
            k s with
    | (Ok hint, s') => (Text hint, s')
    | (Raise e, s') => (Text fallback_hint, s')
    end in
  match and_not (when_truthy pystr_truthy (cache_get env s cache_key))
          user_attempt with
  | Some cached_result => (cached_result, s)
  | None =>
    match and_not
            (when_truthy truthy
               (_get_curated_hint file challenge_id hint_level))
            user_attempt with
    | Some curated_hint =>
        (Text curated_hint,
         (cache_set env cache_key (Text curated_hint) CACHE_DURATION s).2)
    | None =>
        if truthy user_attempt then
          match personalized_hint env challenges challenge_id user_attempt
                  hint_level 0 s with
          | (Ok hint, s') => (Text hint, s')
          | (Raise e, s') => generic 1%nat s'
          end
        else generic 0%nat s
    end
  end.

End Hints.
Export Hints.

(** ** [adjust_content_difficulty] of [difficulty_adjuster.py] *)
Module Adjuster.

Definition quote : string := String (ascii_of_N 34) EmptyString.

Definition adjust_prompt (content : Content) (target_difficulty : Z)
  : string :=
  let current_difficulty := difficulty_base content in
  let making_easier := target_difficulty <? current_difficulty in
  newline
  +:+ "    I need to adjust the following content to make it "
  +:+ (if making_easier then "easier" else "more challenging") +:+ "."
  +:+ newline
  +:+ "    " +:+ newline
  +:+ "    Original content (difficulty level " +:+ str_int current_difficulty
  +:+ "/5):" +:+ newline
  +:+ "    Title: " +:+ title content +:+ newline
  +:+ "    Description: " +:+ description content +:+ newline
  +:+ "    " +:+ newline
  +:+ "    Please rewrite this content for difficulty level "
  +:+ str_int target_difficulty
  +:+ "/5, where 1 is very easy and 5 is very challenging." +:+ newline
  +:+ "    Make these adjustments:" +:+ newline
  +:+ "    1. Simplify/enhance the vocabulary" +:+ newline
  +:+ "    2. Make explanations "
  +:+ (if making_easier then "more detailed with examples"
       else "more concise and advanced") +:+ newline
  +:+ "    3. "
  +:+ (if making_easier then "Break concepts into smaller steps"
       else "Combine concepts and provide fewer steps") +:+ newline
  +:+ "    4. Adjust the title slightly to reflect the new difficulty level"
  +:+ newline
  +:+ "    " +:+ newline
  +:+ "    Return your response in JSON format like this:" +:+ newline
  +:+ "    {" +:+ newline
  +:+ "        " +:+ quote +:+ "title" +:+ quote +:+ ": " +:+ quote
  +:+ "adjusted title" +:+ quote +:+ "," +:+ newline
  +:+ "        " +:+ quote +:+ "description" +:+ quote +:+ ": " +:+ quote
  +:+ "adjusted description" +:+ quote +:+ newline
  +:+ "    }" +:+ newline
  +:+ "    ".

(** [type(v).__name__] of what [json.loads] returned. *)
Definition type_name (v : JSON) : string :=
  match v with
  | JNull => "NoneType"
  | JBool _ => "bool"
  | JInt _ => "int"
  | JNum _ => "float"
  | JStr _ => "str"
  | JArr _ => "list"
  | JObj _ => "dict"
  end.

(** [d.get(key, default)] on what [json.loads] returned; only a [dict]
    has the method. *)
Definition json_get (v : JSON) (key : string) (fallback : JSON)
  : outcome JSON :=
  match v with
  | JObj fields => Ok (default fallback (assoc key fields))
  | _ =>
      raise AttributeError
        ("'" +:+ type_name v +:+ "' object has no attribute 'get'")
  end.

(** [adjust_content_difficulty(content, target_difficulty)].  The module
    global [ai_adapter] is built from a class that [adapter.py] does not
    define, so its [generate_text] is a parameter, as is [json.loads]. *)
Definition adjust_content_difficulty
    (ai_adapter_generate_text : string → Z → outcome string)
    (json_loads : string → outcome JSON)
    (content : Content) (target_difficulty : Z) : list (string * JSON) :=
  let current_difficulty := difficulty_base content in
  if current_difficulty =? target_difficulty then
    [("title", JStr (title content));
     ("description", JStr (description content));
     ("difficulty", JInt current_difficulty);
     ("adjusted", JBool false)]
  else
    let prompt := adjust_prompt content target_difficulty in
    let body : outcome (list (string * JSON)) :=
      response ← ai_adapter_generate_text prompt 800;
      match json_loads response with
      | Ok adjusted_content =>
          new_title ← json_get adjusted_content "title" (JStr (title content));
          new_description ← json_get adjusted_content "description"
                              (JStr (description content));
          Ok [("title", new_title);
              ("description", new_description);
              ("original_difficulty", JInt current_difficulty);
              ("difficulty", JInt target_difficulty);
              ("adjusted", JBool true)]
      | Raise e =>
          match exn_cls e with
          | JSONDecodeError =>
              Ok [("title", JStr (title content));
                  ("description", JStr response);
                  ("original_difficulty", JInt current_difficulty);
                  ("difficulty", JInt target_difficulty);
                  ("adjusted", JBool true)]
          | _ => Raise e
          end
      end in
    match body with
    | Ok result => result
    | Raise e =>
        [("title", JStr (title content));
         ("description", JStr (description content));
         ("difficulty", JInt current_difficulty);
         ("error", JStr (exn_str e));
         ("adjusted", JBool false)]
    end.

End Adjuster.
Export Adjuster.

(** ** [classify_content] of [OpenAIAdapter] and [AnthropicAdapter] *)
Module Classifier.

(** The longest start of [s] that ends with a closing brace. *)
Fixpoint up_to_last_brace (s : string) : option string :=
  match s with
  | String c s' =>
      match up_to_last_brace s' with
      | Some r => Some (String c r)
      | None => if Ascii.eqb c "}" then Some (String c EmptyString) else None
      end
  | EmptyString => None
  end.

(** [re.search(pattern, s, re.DOTALL)] for the pattern made of an opening
    brace, anything, a closing brace: group 0 of the leftmost match, which
    runs to the last closing brace. *)
Fixpoint re_search_braces (s : string) : option string :=
  match s with
  | String c s' =>
      if Ascii.eqb c "{" then
        match up_to_last_brace s' with
        | Some r => Some (String c r)
        | None => re_search_braces s'
        end
      else re_search_braces s'
  | EmptyString => None
  end.

(** [", ".join(categories)] *)
Fixpoint join (categories : list string) : string :=
  match categories with
  | [] => ""
  | [c] => c
  | c :: rest => c +:+ ", " +:+ join rest
  end.

Definition classify_prompt (content : string) (categories : list string)
  : string :=
  newline
  +:+ "        Classify the following content into one of these categories: "
  +:+ join categories +:+ newline
  +:+ "        " +:+ newline
  +:+ "        Content: " +:+ content +:+ newline
  +:+ "        " +:+ newline
  +:+ "        Respond with a JSON object containing the category as the key"
  +:+ " and confidence score (0-1) as the value." +:+ newline
  +:+ "        Example: {" +:+ quote +:+ "category_name" +:+ quote
  +:+ ": 0.8}" +:+ newline
  +:+ "        ".

(** [1.0/len(categories)], a division of doubles, which is only evaluated
    for a category. *)
Definition equal_share (categories : list string) : JSON :=
  JNum (float_truediv 1 (float_of_int (Z.of_nat (length categories)))).

(** The body that the two classes share; [self.generate_text] is the one
    of the class. *)
Definition classify_with
    (self_generate_text : string → Z → Q → outcome string)
    (ext : Externals) (content : string) (categories : list string)
  : list (string * JSON) :=
  let prompt := classify_prompt content categories in
  let body : outcome (list (string * JSON)) :=
    result_text ← self_generate_text prompt 100 (1 # 10);
    match re_search_braces result_text with
    | Some group => json_loads_text ext group
    | None => Ok (dict_comprehension categories (equal_share categories))
    end in
  match body with
  | Ok result => result
  | Raise e => dict_comprehension categories (JNum 0)
  end.

Definition OpenAI_classify_content (ext : Externals) (net : Network)
    (self : ModelAdapter) (content : string) (categories : list string)
  : list (string * JSON) :=
  classify_with (OpenAI_generate_text net self) ext content categories.

Definition Anthropic_classify_content (ext : Externals) (net : Network)
    (self : ModelAdapter) (content : string) (categories : list string)
  : list (string * JSON) :=
  classify_with (Anthropic_generate_text net self) ext content categories.

End Classifier.
Export Classifier.

(** ** [ai_engine/chat_service.py] *)
Module ChatService.

(** An entry of the chat history: whether [entry.get('is_user')] holds,
    and [entry.get('message')]. *)
Record ChatEntry := {
  is_user : bool;
  entry_message : option string
}.

(** [user_data]: each key may be missing; [age_group] is a dictionary with
    the optional keys [name] and [age_range]. *)
Record UserData := {
  user_age_group : option (option string * option string);
  display_name : option string;
  chat_history : option (list ChatEntry)
}.

(** [sub in s] *)
Fixpoint contains (sub s : string) : bool :=
  match after_prefix sub s with
  | Some _ => true
  | None =>
      match s with
      | String _ s' => contains sub s'
      | EmptyString => false
      end
  end.

(** [history[-5:]] *)
Definition last_five {A} (history : list A) : list A :=
  drop (length history - 5) history.

Definition history_line (entry : ChatEntry) : string :=
  (if is_user entry then "User: " else "Mowgli: ")
  +:+ format_optional (entry_message entry) +:+ newline.

Definition history_text (history : list ChatEntry) : string :=
  fold_left (λ text entry, text +:+ history_line entry) history "".

Definition tone (age_range : string) : string :=
  if contains "8-10" age_range then
    "very friendly, simple vocabulary, enthusiastic, uses emojis, encouraging"
  else if contains "11-13" age_range then
    "friendly, slightly more mature vocabulary, encouraging, occasional emoji"
  else "friendly but more mature, conversational, encouraging".

Definition explanation_style (age_range : string) : string :=
  if contains "8-10" age_range then
    "using very simple analogies like comparing code to recipes or building blocks"
  else if contains "11-13" age_range then
    "using relatable analogies like social media, games, or hobbies"
  else
    "using more precise technical terms but still with helpful analogies".

Definition chat_prompt (message : string) (user_data : UserData) : string :=
  let group := default (None, None) (user_age_group user_data) in
  let age_group := default "General" group.1 in
  let age_range := default "8-18" group.2 in
  let username := default "friend" (display_name user_data) in
  let chat_history :=
    last_five (default [] (chat_history user_data)) in
  newline
  +:+ "    You are Mowgli, a friendly AI tech guide for the DSAngels"
  +:+ " platform, which helps young girls learn coding and tech skills."
  +:+ newline
  +:+ "    You're chatting with " +:+ username +:+ ", who is in the "
  +:+ age_group +:+ " age group (" +:+ age_range +:+ " years old)."
  +:+ newline
  +:+ "    " +:+ newline
  +:+ "    Your personality:" +:+ newline
  +:+ "    - You are friendly, supportive, and encouraging" +:+ newline
  +:+ "    - You speak in a " +:+ tone age_range +:+ " tone" +:+ newline
  +:+ "    - You explain technical concepts " +:+ explanation_style age_range
  +:+ newline
  +:+ "    - You promote coding, tech careers, and female role models in"
  +:+ " technology" +:+ newline
  +:+ "    - You never use inappropriate language or discuss inappropriate"
  +:+ " topics" +:+ newline
  +:+ "    - You keep your answers concise and helpful for young learners"
  +:+ newline
  +:+ "    " +:+ newline
  +:+ "    Recent chat history:" +:+ newline
  +:+ "    " +:+ history_text chat_history +:+ newline
  +:+ "    " +:+ newline
  +:+ "    User: " +:+ message +:+ newline
  +:+ "    Mowgli:" +:+ newline
  +:+ "    ".

Definition trouble : string :=
  "I'm having trouble thinking right now. Let's chat again in a moment!".

(** [generate_chat_response(message, user_data)]; the adapter is fetched
    before the [try]. *)
Definition generate_chat_response (env : Env) (message : string)
    (user_data : UserData) : M (list (string * JSON)) :=
  do adapter <- current_adapter env;
  λ s,
    match adapter_generate_text env adapter (chat_prompt message user_data)
            300 (7 # 10) s with
    | (Ok response, s') =>
        (Ok [("message", JStr response); ("success", JBool true)], s')
    | (Raise e, s') =>
        (Ok [("message", JStr trouble); ("success", JBool false);
             ("error", JStr (exn_str e))], s')
    end.

End ChatService.
Export ChatService.

(** ** The estimator in the words of the specification *)
Module Spec.

(** The records of a user that are meaningfully completed. *)
Definition completed_records (db : Database) (user_id : Z)
  : list UserProgress :=
  List.filter
    (λ p, (progress_user_id p =? user_id)
          && Qle_bool 75 (completion_percentage p))
    (progresses db).

(** At least 70% of the records are at 90% or more. *)
Definition high_performer (records : list UserProgress) : Prop :=
  (7 * length records ≤
   10 * length (List.filter (λ p, Qle_bool 90 (completion_percentage p))
                  records))%nat.

(** The difficulties of the content the records point to. *)
Definition completed_difficulties (db : Database)
    (records : list UserProgress) : list Z :=
  omap (content__difficulty_base db) records.

Definition mean (ds : list Z) : Q :=
  Qmake (foldr Z.add 0 ds) (Pos.of_nat (length ds)).

Definition clamp (n : Z) : Z := 1 `max` (5 `min` n).

(** [min(5, round(mean) + 1)], the rounded mean clamped to 1..5 first. *)
Definition boosted (m : Q) : Z := 5 `min` (clamp (round m) + 1).

(** The transport fails on every request: no response, or a response
    with an error status. *)
Definition transport_fails (net : Network) : Prop :=
  ∀ r, match net r with
       | NoResponse _ => True
       | HttpResponse status _ => 400 ≤ status < 600
       end.

(** The adapter is of one of the four classes that call a provider over
    HTTP. *)
Definition over_http (adapter : ModelAdapter) : Prop :=
  adapter_cls adapter ≠ HuggingFaceAdapter
  ∧ adapter_cls adapter ≠ MockAdapter.

(** The same environment at another time. *)
Definition at_time (t : Z) (env : Env) : Env :=
  {| now := t; settings := settings env; db := db env; net := net env;
     explanations_file := explanations_file env; ext := ext env |}.

(** The cache holds nothing usable under [key]: no entry, an entry whose
    time has come, or an empty text. *)
Definition cache_miss (env : Env) (s : State) (key : string) : Prop :=
  when_truthy pystr_truthy (cache_get env s key) = None.

End Spec.

(** ** Sample data *)
Module Fixtures.

Definition always_up : nat → bool := λ _, false.

Definition loops : Content :=
  {| content_pk := 1; title := "Loops"; description := "Repeat a step.";
     age_group_id := 2; content_type := "lesson"; difficulty_base := 2;
     created_at := 100 |}.
Definition recursion : Content :=
  {| content_pk := 2; title := "Recursion";
     description := "A function that calls itself.";
     age_group_id := 2; content_type := "lesson"; difficulty_base := 4;
     created_at := 200 |}.
Definition sorting : Content :=
  {| content_pk := 3; title := "Sorting"; description := "Order a list.";
     age_group_id := 3; content_type := "lesson"; difficulty_base := 1;
     created_at := 300 |}.
Definition variables : Content :=
  {| content_pk := 4; title := "Variables"; description := "Name a value.";
     age_group_id := 2; content_type := "quiz"; difficulty_base := 1;
     created_at := 400 |}.

Definition amina : User := {| user_pk := 7; user_age_group_id := Some 2 |}.

(** Amina has finished [variables] and has started [recursion]. *)
Definition school : Database :=
  {| users := [amina];
     contents := [loops; recursion; sorting; variables];
     progresses :=
       [ {| progress_user_id := 7; progress_content_id := Some 4;
            completion_percentage := 95 |};
         {| progress_user_id := 7; progress_content_id := Some 2;
            completion_percentage := 40 |} ];
     unavailable := always_up |}.

(** Three completed records, all at 90% or more, on difficulties 2, 4, 4. *)
Definition keen : Database :=
  {| users := [amina];
     contents := [loops; recursion; sorting; variables];
     progresses :=
       [ {| progress_user_id := 7; progress_content_id := Some 1;
            completion_percentage := 100 |};
         {| progress_user_id := 7; progress_content_id := Some 2;
            completion_percentage := 92 |};
         {| progress_user_id := 7; progress_content_id := Some 2;
            completion_percentage := 90 |} ];
     unavailable := always_up |}.

(** The first round trip of the call fails. *)
Definition offline : Database :=
  {| users := [amina];
     contents := [loops; recursion; sorting; variables];
     progresses := progresses keen;
     unavailable := λ k, bool_decide (k = 0%nat) |}.

End Fixtures.

(** ** Sample environments of the content generator *)
Module Samples.
Import Fixtures.

Definition externals : Externals :=
  {| HuggingFaceAdapter_generate_text := λ _ prompt _ _, Ok prompt;
     MockAdapter_generate_text := λ _ _ _, Ok "This is a mock response.";
     py_str := λ _, "";
     json_loads_text := λ _, raise JSONDecodeError "Expecting value" |}.

Definition openai : Settings :=
  {| ADAPTER_TYPE := Some "openai"; MODEL_NAME := None;
     API_KEY := Some "sk-test" |}.

Definition keyless : Settings :=
  {| ADAPTER_TYPE := Some "openai"; MODEL_NAME := None; API_KEY := None |}.

Definition unset : Settings :=
  {| ADAPTER_TYPE := None; MODEL_NAME := None; API_KEY := None |}.

(** No request gets through. *)
Definition down : Network := λ _, NoResponse "Connection refused".

(** Every request is answered with a chat completion holding [text]. *)
Definition answers (text : string) : Network :=
  λ _, HttpResponse 200
         (Some (JObj [("choices",
                       JArr [JObj [("message",
                                    JObj [("content", JStr text)])]])])).

Definition fresh : State :=
  {| cache := ∅;
     process := {| environ := ∅; _current_adapter := None |};
     generate_text_calls := [] |}.

(** A mock adapter, and a process in which an adapter is active. *)
Definition mock : ModelAdapter :=
  {| adapter_cls := MockAdapter; api_key := ""; model := "" |}.

Definition with_adapter (adapter : ModelAdapter) : State :=
  {| cache := ∅;
     process := {| environ := ∅; _current_adapter := Some adapter |};
     generate_text_calls := [] |}.

Definition env_at (t : Z) (settings : Settings) (db : Database)
    (net : Network) (file : ExplanationsFile) : Env :=
  {| now := t; settings := settings; db := db; net := net;
     explanations_file := file; ext := externals |}.

Definition carousel : string := "A loop is a carousel that keeps turning.".
Definition orbit : string := "A loop is a planet on its orbit.".

Definition rewritten : string :=
  "Title: Calls within calls" +:+ newline
  +:+ "Description: A function may call itself on a smaller input.".

Definition empty_file : ExplanationsFile := Document (Some []).

(** The file once a curator has added an explanation of loops. *)
Definition curated_file : ExplanationsFile :=
  (add_curated_explanation empty_file "Loops" "space" "Kids 5-8" orbit).2.

(** [recursion] once its base difficulty has been raised to 5. *)
Definition recursion_raised : Content :=
  {| content_pk := 2; title := "Recursion";
     description := "A function that calls itself.";
     age_group_id := 2; content_type := "lesson"; difficulty_base := 5;
     created_at := 200 |}.

Definition school_raised : Database :=
  {| users := users school;
     contents := [loops; recursion_raised; sorting; variables];
     progresses := progresses school;
     unavailable := always_up |}.

End Samples.

(** ** Words for the further properties *)
Module Terms.

(** The user has a progress record on the content item. *)
Definition started (db : Database) (user_id content_id : Z) : bool :=
  existsb
    (λ p, (progress_user_id p =? user_id)
          && match progress_content_id p with
             | Some c => c =? content_id
             | None => false
             end)
    (progresses db).

(** The score an entry is reported with. *)
Definition reported_score (db : Database) (user_id : Z) (e : Entry) : Z :=
  (if entry_difficulty e <=? 3 then 5 else 1)
  + (if started db user_id (entry_content_id e) then 10 else 0).

(** The adapter type names a class that reads an API key. *)
Definition keyed (adapter_type : string) : Prop :=
  lower adapter_type = "openai" ∨ lower adapter_type = "cohere"
  ∨ lower adapter_type = "anthropic"
  ∨ lower adapter_type = "huggingface_api".

(** The adapter type names none of the classes. *)
Definition unknown (adapter_type : string) : Prop :=
  lower adapter_type ≠ "openai" ∧ lower adapter_type ≠ "cohere"
  ∧ lower adapter_type ≠ "anthropic"
  ∧ lower adapter_type ≠ "huggingface_api"
  ∧ lower adapter_type ≠ "huggingface".

(** The state with another cache. *)
Definition with_cache (c : gmap string (pystr * Z)) (s : State) : State :=
  {| cache := c; process := process s;
     generate_text_calls := generate_text_calls s |}.

(** The text holds no line feed. *)
Fixpoint one_line (s : string) : bool :=
  match s with
  | String c s' => negb (Ascii.eqb c (ascii_of_N 10)) && one_line s'
  | EmptyString => true
  end.

(** The text starts with a character that is neither a colon nor a
    blank. *)
Definition starts_with_text (s : string) : bool :=
  match s with
  | String c _ => negb (colon_or_space c)
  | EmptyString => false
  end.

(** The message sent when no explanation can be generated. *)
Definition sorry (theme concept : string) : string :=
  "Sorry, I couldn't generate a " +:+ theme
  +:+ "-themed explanation for " +:+ concept +:+ " right now.".

End Terms.

(** ** Further sample data *)
Module MoreSamples.
Import Fixtures Samples.

(** Amina has also finished a challenge, whose record points to no content
    item. *)
Definition school_with_challenge : Database :=
  {| users := users school;
     contents := contents school;
     progresses :=
       {| progress_user_id := 7; progress_content_id := None;
          completion_percentage := 100 |} :: progresses school;
     unavailable := always_up |}.

(** Four completed records of which two are at 90% or more, on
    difficulties 2, 4, 4, 4. *)
Definition steady : Database :=
  {| users := users school;
     contents := contents school;
     progresses :=
       [ {| progress_user_id := 7; progress_content_id := Some 1;
            completion_percentage := 100 |};
         {| progress_user_id := 7; progress_content_id := Some 2;
            completion_percentage := 92 |};
         {| progress_user_id := 7; progress_content_id := Some 2;
            completion_percentage := 80 |};
         {| progress_user_id := 7; progress_content_id := Some 2;
            completion_percentage := 76 |} ];
     unavailable := always_up |}.

(** Settings whose API key starts with a NUL. *)
Definition broken_key : Settings :=
  {| ADAPTER_TYPE := Some "openai"; MODEL_NAME := None;
     API_KEY := Some (String (ascii_of_N 0) "sk-test") |}.

Definition fizzbuzz : Challenge :=
  {| challenge_pk := 3; problem_statement := "Print the numbers 1 to 15.";
     expected_output := "1 2 Fizz" |}.

Definition challenges : list Challenge := [fizzbuzz].

(** A hint of level 1 for challenge 3. *)
Definition hints_file : HintsFile :=
  (add_curated_hint (HintsDocument []) 3 1 "Start with a loop.").2.

(** A cache that holds a hint of level 1 for challenge 3 for a day. *)
Definition hint_in_cache : gmap string (pystr * Z) :=
  {[ hint_cache_key 3 1 := (Text "Count to fifteen first.", 86400) ]}.

(** An answer that is not JSON, and a decoder that says so. *)
Definition prose : string := "Loops, made harder.".

Definition no_json (text : string) : outcome JSON :=
  raise JSONDecodeError "Expecting value".

Definition girl : UserData :=
  {| user_age_group := Some (Some "Explorers", Some "8-10");
     display_name := Some "Amina";
     chat_history := None |}.

End MoreSamples.

(** * Properties *)

(** ** The difficulty estimator *)
Module DifficultyFacts.
Import Spec.

Example keen_level : get_appropriate_difficulty_level Fixtures.keen 7 = Ok 4.
Proof. reflexivity. Qed.
Example school_level :
  get_appropriate_difficulty_level Fixtures.school 7 = Ok 2.
Proof. reflexivity. Qed.
Example offline_level :
  get_appropriate_difficulty_level Fixtures.offline 7 = Ok 1.
Proof. reflexivity. Qed.

Lemma filter_nil_iff {A} (f : A → bool) (l : list A) :
  List.filter f l = [] ↔ ∀ x, x ∈ l → f x = false.
Proof.
  induction l as [|y l IH]; simpl.
  - split; [intros _ x Hx; inversion Hx | done].
  - destruct (f y) eqn:Hy; split.
    + discriminate.
    + intros H. specialize (H y (list_elem_of_here _ _)). congruence.
    + intros H x Hx. inversion Hx; subst; [done|]. by apply IH.
    + intros H. apply IH. intros x Hx. apply H. by constructor.
Qed.

Lemma completed_records_filter db uid :
  UserProgress_filter db uid (Some 75%Q) = completed_records db uid.
Proof. reflexivity. Qed.

Lemma no_completed_records db uid :
  (∀ p, p ∈ progresses db → progress_user_id p = uid →
        (completion_percentage p < 75)%Q) →
  completed_records db uid = [].
Proof.
  intros H. apply filter_nil_iff. intros p Hp.
  destruct (progress_user_id p =? uid) eqn:Hu; [|done]. simpl.
  apply Z.eqb_eq in Hu. specialize (H p Hp Hu).
  destruct (Qle_bool 75 (completion_percentage p)) eqn:Hq; [|done].
  apply Qle_bool_iff in Hq. exfalso. by apply (Qlt_not_le _ _ H).
Qed.

(** X6: the estimator never raises, and its answer is a level from 1 to
    5, whatever the records and the database are. *)
Lemma difficulty_level_total db uid :
  ∃ n, get_appropriate_difficulty_level db uid = Ok n ∧ 1 ≤ n ≤ 5.
Proof.
  unfold get_appropriate_difficulty_level, difficulty_level_body,
    round_trip, truediv, raise.
  repeat (match goal with
          | |- context [if ?b then _ else _] => destruct b
          end; simpl);
    eexists; (split; [reflexivity|]); lia.
Qed.

(** C6: a user with no record at 75% or more gets level 1, and so does
    any call whose estimation fails: an exception raised in the body, for
    instance by a round trip to the database that does not answer. *)
Theorem difficulty_floor_and_fallback (db : Database) (uid : Z) :
  (∀ p, p ∈ progresses db → progress_user_id p = uid →
        (completion_percentage p < 75)%Q)
  ∨ (∃ e, difficulty_level_body db uid = Raise e)
  ∨ (∃ k, (k < 4)%nat ∧ unavailable db k = true
          ∧ ∀ j, (j < k)%nat → unavailable db j = false) →
  get_appropriate_difficulty_level db uid = Ok 1.
Proof.
  intros [Hnone|[[e He]|(k & Hk & Hdown & Hup)]].
  - apply no_completed_records in Hnone.
    unfold get_appropriate_difficulty_level, difficulty_level_body.
    rewrite completed_records_filter, Hnone. simpl.
    unfold round_trip. by destruct (unavailable db 0).
  - unfold get_appropriate_difficulty_level. by rewrite He.
  - unfold get_appropriate_difficulty_level, difficulty_level_body, round_trip.
    destruct k as [|[|[|[|k]]]]; [| | | |lia].
    + by rewrite Hdown.
    + rewrite (Hup 0%nat) by lia. simpl.
      destruct (nonempty _); [|done]. simpl. by rewrite Hdown.
    + rewrite (Hup 0%nat), (Hup 1%nat) by lia. simpl.
      destruct (nonempty _); [|done]. simpl. by rewrite Hdown.
    + rewrite (Hup 0%nat), (Hup 1%nat), (Hup 2%nat) by lia. simpl.
      destruct (nonempty _); [|done]. simpl. by rewrite Hdown.
Qed.

Lemma difficulty_floor_and_fallback_witness :
  get_appropriate_difficulty_level Fixtures.school 8 = Ok 1
  ∧ get_appropriate_difficulty_level Fixtures.offline 7 = Ok 1.
Proof.
  split.
  - apply difficulty_floor_and_fallback. left. intros p Hp Hu.
    repeat (inversion Hp as [|? ? ? Hp']; subst; clear Hp;
            [vm_compute in Hu; discriminate|]; rename Hp' into Hp).
    inversion Hp.
  - apply difficulty_floor_and_fallback. right. right.
    exists 0%nat. split; [lia|]. split; [reflexivity|]. intros j Hj. lia.
Defined.

Lemma omap_id_fmap {A B} (f : A → option B) (l : list A) :
  omap id (f <$> l) = omap f l.
Proof.
  induction l as [|x l IH]; [done|]. csimpl. rewrite IH. by destruct (f x).
Qed.

Lemma round_zero_clamped (a : Q) :
  Qeq_bool a 0 = true → clamp (round a) = clamp (round 1).
Proof.
  intros H. apply Qeq_bool_iff in H. unfold Qeq in H. simpl in H.
  destruct a as [n d]. simpl in H. assert (n = 0) by lia. subst n.
  reflexivity.
Qed.

Lemma ratio_at_least_70_percent (high total : nat) :
  total ≠ 0%nat →
  Qle_bool (7 # 10) (Qmake (Z.of_nat high) 1 / Qmake (Z.of_nat total) 1)
  = bool_decide (7 * total ≤ 10 * high)%nat.
Proof.
  intros Ht. destruct total as [|t]; [done|].
  unfold Qle_bool, Qdiv, Qmult, Qinv. simpl Qnum. simpl Qden.
  case_bool_decide as Hle.
  - apply Z.leb_le. lia.
  - apply Z.leb_gt. lia.
Qed.

(** C5: when at least 70% of the completed records of a user are at 90%
    or more, the estimator returns [min(5, round(mean) + 1)], where the
    mean difficulty of the completed content is rounded to the nearest
    integer and clamped to 1..5 before the increment. *)
Theorem difficulty_boost (db : Database) (uid : Z) :
  (∀ k, unavailable db k = false) →
  completed_records db uid ≠ [] →
  high_performer (completed_records db uid) →
  completed_difficulties db (completed_records db uid) ≠ [] →
  get_appropriate_difficulty_level db uid
  = Ok (boosted
          (mean (completed_difficulties db (completed_records db uid)))).
Proof.
  intros Hup Hne Hhigh Hds.
  unfold get_appropriate_difficulty_level, difficulty_level_body, round_trip.
  rewrite !Hup, completed_records_filter. simpl.
  destruct (completed_records db uid) as [|p ps] eqn:Hrec; [done|].
  rewrite <- Hrec in *. replace (nonempty _) with true by (by rewrite Hrec).
  simpl. unfold truediv.
  assert (length (completed_records db uid) ≠ 0%nat) as Hlen
    by (rewrite Hrec; simpl; lia).
  destruct (Z.of_nat (length (completed_records db uid)) =? 0) eqn:Hz;
    [apply Z.eqb_eq in Hz; lia|].
  simpl. unfold filter_completion_gte.
  rewrite ratio_at_least_70_percent by done.
  rewrite bool_decide_eq_true_2 by exact Hhigh.
  unfold Avg. rewrite omap_id_fmap.
  fold (completed_difficulties db (completed_records db uid)).
  destruct (completed_difficulties db (completed_records db uid))
    as [|d ds] eqn:Hd; [done|].
  unfold boosted. fold (mean (d :: ds)).
  destruct (Qeq_bool (mean (d :: ds)) 0) eqn:Hm; [|done].
  apply round_zero_clamped in Hm. by rewrite Hm.
Qed.

Lemma difficulty_boost_witness :
  get_appropriate_difficulty_level Fixtures.keen 7 = Ok 4.
Proof.
  apply (difficulty_boost Fixtures.keen 7).
  - reflexivity.
  - vm_compute. discriminate.
  - vm_compute. lia.
  - vm_compute. discriminate.
Defined.

End DifficultyFacts.

(** ** The recommendation engine *)
Module RecommendationFacts.
Import Terms.

Example school_recommendations :
  get_personalized_recommendations Fixtures.school 7 5 None
  = Ok [ {| entry_content_id := 2; entry_title := "Recursion";
            entry_content_type := "lesson"; entry_difficulty := 4;
            entry_relevance_score := 11 |};
         {| entry_content_id := 1; entry_title := "Loops";
            entry_content_type := "lesson"; entry_difficulty := 2;
            entry_relevance_score := 5 |} ].
Proof. reflexivity. Qed.

Example school_one_recommendation :
  get_personalized_recommendations Fixtures.school 7 1 None
  = Ok [ {| entry_content_id := 2; entry_title := "Recursion";
            entry_content_type := "lesson"; entry_difficulty := 4;
            entry_relevance_score := 11 |} ].
Proof. reflexivity. Qed.

Example unknown_user :
  get_personalized_recommendations Fixtures.school 8 5 None = Ok [].
Proof. reflexivity. Qed.

Example negative_count :
  get_personalized_recommendations Fixtures.school 7 (-1) None = Ok [].
Proof. reflexivity. Qed.

(** A count that the database does not take as a [LIMIT]. *)
Example count_above_limit :
  get_personalized_recommendations Fixtures.school 7 (2 ^ 63) None = Ok [].
Proof. reflexivity. Qed.

#[local] Instance rank_le_total : Total rank_le.
Proof. intros a b. unfold rank_le. lia. Qed.

#[local] Instance rank_le_trans : Transitive rank_le.
Proof. intros a b c. unfold rank_le. lia. Qed.

(** In a strongly sorted list an earlier element is related to a later
    one. *)
Lemma StronglySorted_lookup_lt {A} (R : relation A) (l : list A) i j a b :
  StronglySorted R l → (i < j)%nat →
  l !! i = Some a → l !! j = Some b → R a b.
Proof.
  intros Hs. revert i j. induction Hs as [|x l Hs IH Hall]; intros i j Hij Hi Hj.
  - by rewrite lookup_nil in Hi.
  - destruct j as [|j]; [lia|]. simpl in Hj. destruct i as [|i].
    + simpl in Hi. simplify_eq. rewrite Forall_forall in Hall.
      apply Hall. by eapply list_elem_of_lookup_2.
    + simpl in Hi. apply (IH i j); [lia|done..].
Qed.

Lemma StronglySorted_take {A} (R : relation A) (l : list A) n :
  StronglySorted R l → StronglySorted R (take n l).
Proof.
  intros Hs. rewrite <- (take_drop n l) in Hs.
  by apply StronglySorted_app_1_l in Hs.
Qed.

(** The two ways a call ends: with nothing, or with the first [count] rows
    of the ranking of the user that was found. *)
Lemma recommendations_shape db uid count ct :
  ∃ rows,
    get_personalized_recommendations db uid count ct
    = Ok (format_entry <$> rows)
    ∧ (rows = []
       ∨ ∃ u, objects_get "User" user_pk db 0 (users db) uid = Ok u
              ∧ 0 ≤ count ≤ LIMIT_MAX
              ∧ rows = take (Z.to_nat count)
                         (ranked db uid (user_age_group_id u) ct)).
Proof.
  unfold get_personalized_recommendations, recommendations_body.
  destruct (objects_get "User" user_pk db 0 (users db) uid) as [u|e] eqn:Hu;
    simpl.
  2:{ exists []. split; [by destruct (exn_cls e)|by left]. }
  unfold slice_to. destruct (count <? 0) eqn:Hc; simpl.
  { exists []. split; [done|by left]. }
  unfold fetch_sliced, round_trip. destruct (unavailable db 1); simpl.
  { exists []. split; [done|by left]. }
  destruct (LIMIT_MAX <? count) eqn:Hmax; simpl.
  { exists []. split; [done|by left]. }
  eexists. split; [reflexivity|]. right. exists u.
  split; [done|]. split; [lia|done].
Qed.

(** The call of a user that is found, when the rows can be fetched. *)
Lemma recommendations_fetched db uid count ct u :
  objects_get "User" user_pk db 0 (users db) uid = Ok u →
  0 ≤ count ≤ LIMIT_MAX →
  unavailable db 1 = false →
  get_personalized_recommendations db uid count ct
  = Ok (format_entry
          <$> take (Z.to_nat count) (ranked db uid (user_age_group_id u) ct)).
Proof.
  intros Hu Hc Hup.
  unfold get_personalized_recommendations, recommendations_body.
  rewrite Hu. simpl. unfold slice_to.
  replace (count <? 0) with false by lia. simpl.
  unfold fetch_sliced, round_trip. rewrite Hup. simpl.
  by replace (LIMIT_MAX <? count) with false by lia.
Qed.

Lemma annotated_query_in db uid g ct a :
  a ∈ annotated_query db uid g ct →
  item a ∈ contents db ∧ g = Some (age_group_id (item a)).
Proof.
  unfold annotated_query. intros Ha.
  apply list_elem_of_fmap in Ha as (c & -> & Hc). simpl.
  apply list_elem_of_In, filter_In in Hc as [Hc _].
  assert (c ∈ filter_age_group g (contents db)) as Hg.
  { unfold filter_content_type in Hc. apply list_elem_of_In.
    destruct ct as [t|]; [|done]. destruct (truthy t); [|done].
    by apply filter_In in Hc as [Hc _]. }
  unfold filter_age_group in Hg. destruct g as [g|]; [|by inversion Hg].
  apply list_elem_of_In, filter_In in Hg as [Hin Heq].
  apply Z.eqb_eq in Heq. split; [by apply list_elem_of_In|by rewrite Heq].
Qed.

Lemma sql_in_false x ids :
  sql_in x ids = Some false ↔ (∀ v, v ∈ ids → v ≠ None ∧ v ≠ Some x).
Proof.
  unfold sql_in.
  induction ids as [|v ids IH]; simpl.
  - split; [by intros _ v Hv; inversion Hv|done].
  - destruct v as [y|]; simpl.
    + destruct (x =? y) eqn:Hxy; simpl.
      * apply Z.eqb_eq in Hxy. subst y. split; [done|].
        intros H. by destruct (H (Some x) (list_elem_of_here _ _)) as [_ ?].
      * apply Z.eqb_neq in Hxy. rewrite IH. split.
        -- intros H v Hv. inversion Hv; subst; [|by apply H].
           split; [done|]. by intros [= ->].
        -- intros H v Hv. apply H. by constructor.
    + split.
      * destruct (existsb _ ids); simpl; intros ?; discriminate.
      * intros H. by destruct (H None (list_elem_of_here _ _)) as [? _].
Qed.

Lemma sql_in_true x ids : sql_in x ids = Some true ↔ Some x ∈ ids.
Proof.
  unfold sql_in.
  destruct (existsb (λ v, match v with Some y => x =? y | None => false end)
              ids) eqn:Hex.
  - split; [intros _|done]. apply existsb_exists in Hex as (v & Hv & Hxv).
    destruct v as [y|]; [|done]. apply Z.eqb_eq in Hxv. subst y.
    by apply list_elem_of_In.
  - split.
    { destruct (existsb (λ v, match v with Some _ => false | None => true end)
                  ids); intros ?; discriminate. }
    intros Hin.
    assert (existsb (λ v, match v with Some y => x =? y | None => false end)
              ids = true) as Hex'; [|congruence].
    apply existsb_exists. exists (Some x).
    split; [by apply list_elem_of_In|apply Z.eqb_refl].
Qed.

Lemma in_UserProgress_filter db uid gte p :
  p ∈ UserProgress_filter db uid gte ↔
  p ∈ progresses db ∧ progress_user_id p = uid
  ∧ match gte with
    | Some q => Qle_bool q (completion_percentage p) = true
    | None => True
    end.
Proof.
  unfold UserProgress_filter.
  rewrite list_elem_of_In, filter_In, <- list_elem_of_In, andb_true_iff,
    Z.eqb_eq.
  destruct gte; intuition.
Qed.

(** The rows of the query behind an entry of the returned list. *)
Lemma entry_row db uid count ct entries e :
  get_personalized_recommendations db uid count ct = Ok entries →
  e ∈ entries →
  ∃ u a, objects_get "User" user_pk db 0 (users db) uid = Ok u
         ∧ a ∈ annotated_query db uid (user_age_group_id u) ct
         ∧ e = format_entry a.
Proof.
  intros Hres He.
  destruct (recommendations_shape db uid count ct) as (rows & Heq & Hrows).
  rewrite Heq in Hres. simplify_eq.
  destruct Hrows as [->|(u & Hu & Hc & ->)]; [by inversion He|].
  apply list_elem_of_fmap in He as (a & -> & Ha).
  apply elem_of_take in Ha as (i & Ha & _).
  apply list_elem_of_lookup_2 in Ha. unfold ranked in Ha.
  rewrite merge_sort_Permutation in Ha. by exists u, a.
Qed.

Lemma annotated_query_row db uid g ct a :
  a ∈ annotated_query db uid g ct ↔
  ∃ c, a = annotate (values_list_content_id
                       (UserProgress_filter db uid None)) c
       ∧ c ∈ filter_content_type ct (filter_age_group g (contents db))
       ∧ sql_in (content_pk c)
           (values_list_content_id (UserProgress_filter db uid (Some 80%Q)))
         = Some false.
Proof.
  unfold annotated_query. rewrite list_elem_of_fmap.
  split; intros (c & -> & Hc); exists c; (split; [done|]).
  - apply list_elem_of_In, filter_In in Hc as [Hc Hex].
    split; [by apply list_elem_of_In|].
    by destruct (sql_in _ _) as [[]|].
  - destruct Hc as [Hc Hex]. apply list_elem_of_In, filter_In.
    split; [by apply list_elem_of_In|by rewrite Hex].
Qed.

Lemma started_iff db uid cid :
  started db uid cid = true ↔
  Some cid ∈ values_list_content_id (UserProgress_filter db uid None).
Proof.
  unfold started, values_list_content_id.
  rewrite list_elem_of_fmap. split.
  - intros Hex. apply existsb_exists in Hex as (p & Hp & Hcond).
    apply andb_true_iff in Hcond as [Hu Hc]. apply Z.eqb_eq in Hu.
    destruct (progress_content_id p) as [c|] eqn:Hpc; [|done].
    apply Z.eqb_eq in Hc. subst c. exists p. split; [done|].
    apply in_UserProgress_filter. by rewrite <- list_elem_of_In in Hp.
  - intros (p & Hc & Hp). apply in_UserProgress_filter in Hp as (Hp & Hu & _).
    apply existsb_exists. exists p. split; [by apply list_elem_of_In|].
    rewrite <- Hc, Hu, !Z.eqb_refl. done.
Qed.

(** The scores of a row of the query: 10 or 0 by whether the user has a
    progress record on the item, 5 or 1 by its difficulty. *)
Lemma annotated_query_scores db uid g ct a :
  a ∈ annotated_query db uid g ct →
  in_progress a = (if started db uid (content_pk (item a)) then 10 else 0)
  ∧ relevance_score a = (if difficulty_base (item a) <=? 3 then 5 else 1).
Proof.
  intros Ha. apply annotated_query_row in Ha as (c & -> & _ & _).
  split; [|done]. unfold annotate. simpl.
  destruct (started db uid (content_pk c)) eqn:Hs.
  - apply started_iff, sql_in_true in Hs. by rewrite Hs.
  - destruct (sql_in _ _) as [[]|] eqn:Hin; [|done..].
    apply sql_in_true, started_iff in Hin. congruence.
Qed.

Lemma ranked_sorted db uid g ct :
  StronglySorted rank_le (ranked db uid g ct).
Proof. apply (StronglySorted_merge_sort _). Qed.

Lemma ranked_in db uid g ct a :
  a ∈ ranked db uid g ct ↔ a ∈ annotated_query db uid g ct.
Proof. unfold ranked. by rewrite merge_sort_Permutation. Qed.

(** C4: the call ranks the rows of the query by [in_progress] descending,
    then [relevance_score] descending, then [difficulty_base] ascending,
    then creation time descending, and returns the first [count] rows of
    that ranking: it does so for a user that is found, a count that the
    database takes and rows that can be fetched, and returns nothing
    otherwise.  In the returned list, of at most [count] entries, the
    reported score descends and, at the same score, the difficulty
    ascends; and an item of the query on which the user has a progress
    record comes before every entry of an item on which the user has none,
    whatever their relevance scores. *)
Theorem recommendations_ranked (db : Database) (uid count : Z)
    (ct : option string) :
  ∃ (ranking : list Annotated) (entries : list Entry),
    get_personalized_recommendations db uid count ct = Ok entries
    ∧ (length entries ≤ Z.to_nat count)%nat
    ∧ (entries = []
       ∨ entries = format_entry <$> take (Z.to_nat count) ranking)
    ∧ (∀ u,
         objects_get "User" user_pk db 0 (users db) uid = Ok u →
         ranking ≡ₚ annotated_query db uid (user_age_group_id u) ct
         ∧ (0 ≤ count ≤ LIMIT_MAX →
            unavailable db 1 = false →
            entries = format_entry <$> take (Z.to_nat count) ranking))
    ∧ (∀ i j a b,
         (i < j)%nat → ranking !! i = Some a → ranking !! j = Some b →
         in_progress b < in_progress a
         ∨ (in_progress a = in_progress b
            ∧ (relevance_score b < relevance_score a
               ∨ (relevance_score a = relevance_score b
                  ∧ (difficulty_base (item a) < difficulty_base (item b)
                     ∨ (difficulty_base (item a) = difficulty_base (item b)
                        ∧ created_at (item b) ≤ created_at (item a)))))))
    ∧ (∀ i j e e',
         (i < j)%nat → entries !! i = Some e → entries !! j = Some e' →
         entry_relevance_score e' < entry_relevance_score e
         ∨ (entry_relevance_score e = entry_relevance_score e'
            ∧ entry_difficulty e ≤ entry_difficulty e'))
    ∧ (∀ u a j e',
         objects_get "User" user_pk db 0 (users db) uid = Ok u →
         a ∈ annotated_query db uid (user_age_group_id u) ct →
         started db uid (content_pk (item a)) = true →
         entries !! j = Some e' →
         started db uid (entry_content_id e') = false →
         ∃ i, (i < j)%nat ∧ entries !! i = Some (format_entry a)).
Proof.
  destruct (objects_get "User" user_pk db 0 (users db) uid) as [u|err] eqn:Hu.
  2:{ exists [], []. split.
      { unfold get_personalized_recommendations, recommendations_body.
        rewrite Hu. simpl. by destruct (exn_cls err). }
      split; [simpl; lia|]. split; [by left|]. split; [done|].
      split; [by intros ????? H; rewrite lookup_nil in H|].
      split; [by intros ????? H; rewrite lookup_nil in H|done]. }
  set (g := user_age_group_id u).
  exists (ranked db uid g ct).
  assert (∀ i j a b,
            (i < j)%nat → ranked db uid g ct !! i = Some a →
            ranked db uid g ct !! j = Some b → rank_le a b) as Hsorted.
  { intros i j a b. apply (StronglySorted_lookup_lt rank_le).
    apply ranked_sorted. }
  destruct (recommendations_shape db uid count ct)
    as (rows & Heq & Hrows).
  exists (format_entry <$> rows). split; [done|].
  assert (rows = [] ∨ rows = take (Z.to_nat count) (ranked db uid g ct))
    as Hprefix.
  { destruct Hrows as [->|(u' & Hu' & _ & ->)]; [by left|].
    rewrite Hu in Hu'. simplify_eq. by right. }
  split.
  { destruct Hprefix as [->| ->]; [simpl; lia|].
    rewrite length_fmap, length_take. lia. }
  split; [destruct Hprefix as [->| ->]; [by left|by right]|].
  split.
  { intros u' [= <-]. split; [apply merge_sort_Permutation|].
    intros Hc Hup.
    pose proof (recommendations_fetched db uid count ct u Hu Hc Hup) as Hres.
    rewrite Heq in Hres. by simplify_eq. }
  split; [exact Hsorted|].
  assert (∀ k a, rows !! k = Some a →
                 ranked db uid g ct !! k = Some a
                 ∧ (k < Z.to_nat count)%nat
                 ∧ a ∈ annotated_query db uid g ct) as Hrow.
  { intros k a Hk. destruct Hprefix as [->| ->];
      [by rewrite lookup_nil in Hk|].
    apply lookup_take_Some in Hk as [Hk Hlt].
    split; [done|]. split; [done|].
    apply ranked_in. by eapply list_elem_of_lookup_2. }
  split.
  - intros i j e e' Hij Hi Hj.
    rewrite list_lookup_fmap in Hi, Hj.
    destruct (rows !! i) as [a|] eqn:Ha; [|done].
    destruct (rows !! j) as [b|] eqn:Hb; [|done].
    simpl in Hi, Hj. simplify_eq.
    apply Hrow in Ha as (Ha & _ & Hqa). apply Hrow in Hb as (Hb & _ & Hqb).
    pose proof (Hsorted i j a b Hij Ha Hb) as Hab.
    apply annotated_query_scores in Hqa as [Hpa Hra].
    apply annotated_query_scores in Hqb as [Hpb Hrb].
    unfold rank_le in Hab. unfold format_entry. simpl.
    rewrite Hpa, Hra, Hpb, Hrb in *.
    destruct (started db uid (content_pk (item a))),
      (started db uid (content_pk (item b))),
      (difficulty_base (item a) <=? 3) eqn:Hda,
      (difficulty_base (item b) <=? 3) eqn:Hdb; lia.
  - intros u' a j e' [= <-] Hqa Hsa Hj Hse'.
    rewrite list_lookup_fmap in Hj.
    destruct (rows !! j) as [b|] eqn:Hb; [|done].
    simpl in Hj. simplify_eq. simpl in Hse'.
    assert (rows = take (Z.to_nat count) (ranked db uid g ct)) as ->.
    { destruct Hprefix as [->|?]; [by rewrite lookup_nil in Hb|done]. }
    apply Hrow in Hb as (Hb & Hjn & Hqb).
    apply annotated_query_scores in Hqb as [Hpb _]. rewrite Hse' in Hpb.
    pose proof Hqa as Hpa.
    apply annotated_query_scores in Hpa as [Hpa _]. rewrite Hsa in Hpa.
    apply ranked_in, list_elem_of_lookup in Hqa as [i Hi].
    destruct (decide (i < j)%nat) as [Hlt|Hge].
    + exists i. split; [done|]. rewrite list_lookup_fmap.
      rewrite lookup_take_lt by lia. subst g. by rewrite Hi.
    + exfalso. destruct (decide (i = j)) as [->|Hne].
      * subst g. rewrite Hi in Hb. simplify_eq. lia.
      * assert (rank_le b a) as Hba by (apply (Hsorted j i); [lia|done..]).
        unfold rank_le in Hba. lia.
Qed.

(** Amina has started [recursion], of relevance 1, and has never seen
    [loops], of relevance 5: [recursion] comes first. *)
Lemma recommendations_ranked_witness :
  ∃ ranking entries,
    get_personalized_recommendations Fixtures.school 7 5 None = Ok entries
    ∧ entries = format_entry <$> take 5 ranking
    ∧ ranking ≡ₚ annotated_query Fixtures.school 7 (Some 2) None
    ∧ entry_content_id <$> entries = [2; 1].
Proof.
  destruct (recommendations_ranked Fixtures.school 7 5 None)
    as (ranking & entries & Hres & _ & _ & Hfound & _).
  destruct (Hfound Fixtures.amina eq_refl) as [Hperm Hfetched].
  exists ranking, entries.
  split; [exact Hres|]. split; [by apply Hfetched|]. split; [exact Hperm|].
  vm_compute in Hres. by injection Hres as <-.
Defined.

(** C7: every entry of the returned list is a row of the catalogue whose
    age group is the one of the user. *)
Theorem recommendations_in_age_group (db : Database) (uid count : Z)
    (ct : option string) (entries : list Entry) (e : Entry) :
  get_personalized_recommendations db uid count ct = Ok entries →
  e ∈ entries →
  ∃ u c,
    objects_get "User" user_pk db 0 (users db) uid = Ok u
    ∧ c ∈ contents db
    ∧ content_pk c = entry_content_id e
    ∧ title c = entry_title e
    ∧ user_age_group_id u = Some (age_group_id c).
Proof.
  intros Hres He.
  destruct (recommendations_shape db uid count ct)
    as (rows & Heq & Hrows).
  rewrite Heq in Hres. simplify_eq.
  destruct Hrows as [->|(u & Hu & Hc & ->)]; [by inversion He|].
  apply list_elem_of_fmap in He as (a & -> & Ha).
  apply elem_of_take in Ha as (i & Ha & _).
  apply list_elem_of_lookup_2 in Ha. unfold ranked in Ha.
  rewrite merge_sort_Permutation in Ha.
  apply annotated_query_in in Ha as [Hin Hg].
  exists u, (item a). by repeat split.
Qed.

Lemma recommendations_in_age_group_witness :
  ∃ u c,
    objects_get "User" user_pk Fixtures.school 0
      (users Fixtures.school) 7 = Ok u
    ∧ c ∈ contents Fixtures.school
    ∧ content_pk c = 2
    ∧ title c = "Recursion"
    ∧ user_age_group_id u = Some (age_group_id c).
Proof.
  apply (recommendations_in_age_group Fixtures.school 7 5 None _
           {| entry_content_id := 2; entry_title := "Recursion";
              entry_content_type := "lesson"; entry_difficulty := 4;
              entry_relevance_score := 11 |}
           eq_refl).
  apply list_elem_of_here.
Defined.

(** C8: a call never raises; it returns the empty list when the user is
    not found and when anything else fails in the body, and at most
    [count] entries otherwise. *)
Theorem recommendations_never_raise (db : Database) (uid count : Z)
    (ct : option string) :
  ∃ entries,
    get_personalized_recommendations db uid count ct = Ok entries
    ∧ (length entries ≤ Z.to_nat count)%nat
    ∧ (List.filter (λ u, user_pk u =? uid) (users db) = [] → entries = [])
    ∧ (∀ e, recommendations_body db uid count ct = Raise e → entries = []).
Proof.
  destruct (recommendations_shape db uid count ct)
    as (rows & Heq & Hrows).
  exists (format_entry <$> rows). split; [done|].
  split.
  { destruct Hrows as [->|(u & Hu & Hc & ->)]; [simpl; lia|].
    rewrite length_fmap, length_take. lia. }
  split.
  - intros Hnone. destruct Hrows as [->|(u & Hu & _)]; [done|].
    unfold objects_get, round_trip in Hu. rewrite Hnone in Hu.
    by destruct (unavailable db 0).
  - intros e He. unfold get_personalized_recommendations in Heq.
    rewrite He in Heq. simpl in Heq.
    destruct (exn_cls e); by simplify_eq.
Qed.

End RecommendationFacts.

(** ** The content generator *)
Module GeneratorFacts.
Import Spec Fixtures Samples.

Example adapt_when_down :
  (adapt_content_difficulty (env_at 0 openai school down empty_file)
     1 None 4 fresh).1
  = [("title", JStr "Loops");
       ("description", JStr "I couldn't generate a response at this time.");
       ("original_difficulty", JInt 2);
       ("target_difficulty", JInt 4);
       ("adapted", JBool true)].
Proof. vm_compute. reflexivity. Qed.

(** *** The cache *)

Lemma when_truthy_Some {A} (t : A → bool) (x : option A) (v : A) :
  when_truthy t x = Some v ↔ x = Some v ∧ t v = true.
Proof.
  unfold when_truthy. destruct x as [w|].
  - destruct (t w) eqn:Hw; split.
    + intros [= ->]. done.
    + intros [[= ->] _]. done.
    + discriminate.
    + intros [[= ->] ?]. congruence.
  - split; [discriminate|]. by intros [? _].
Qed.

Lemma cache_get_Some env s key v :
  cache_get env s key = Some v ↔
  ∃ expiry, cache s !! key = Some (v, expiry) ∧ now env < expiry.
Proof.
  unfold cache_get. destruct (cache s !! key) as [[w e]|].
  - destruct (now env <? e) eqn:Hlt.
    + apply Z.ltb_lt in Hlt. split.
      * intros [= ->]. by exists e.
      * intros (e' & [= -> ->] & _). done.
    + apply Z.ltb_ge in Hlt. split; [done|].
      intros (e' & [= -> ->] & ?). lia.
  - split; [done|]. by intros (e' & ? & _).
Qed.

(** A usable entry is found by every call made before its time has come. *)
Lemma live_entry_hit env s key v expiry t :
  cache s !! key = Some (v, expiry) → pystr_truthy v = true → t < expiry →
  when_truthy pystr_truthy (cache_get (at_time t env) s key) = Some v.
Proof.
  intros Hk Hv Ht. apply when_truthy_Some. split; [|done].
  apply cache_get_Some. exists expiry. by split.
Qed.

Lemma live_entry_no_miss env s key v expiry :
  cache s !! key = Some (v, expiry) → pystr_truthy v = true →
  now env < expiry → ¬ cache_miss env s key.
Proof.
  intros Hk Hv Ht Hmiss. unfold cache_miss in Hmiss.
  assert (when_truthy pystr_truthy (cache_get env s key) = Some v) as Hhit.
  { apply when_truthy_Some. split; [|done].
    apply cache_get_Some. exists expiry. by split. }
  congruence.
Qed.

Lemma cache_set_lookup env key v timeout s :
  cache (cache_set env key v timeout s).2 !! key
  = Some (v, now env + timeout).
Proof. simpl. apply lookup_insert_eq. Qed.

Lemma cache_set_calls env key v timeout s :
  generate_text_calls (cache_set env key v timeout s).2
  = generate_text_calls s
  ∧ process (cache_set env key v timeout s).2 = process s.
Proof. done. Qed.

(** *** The adapters *)

(** An adapter that goes over HTTP turns a failing transport into its
    fixed text. *)
Lemma http_adapter_contains_failure ext net adapter prompt max_tokens temp :
  over_http adapter → transport_fails net →
  generate_text ext net adapter prompt max_tokens temp = Ok unavailable_text.
Proof.
  intros [Hhf Hmock] Hfail. unfold generate_text.
  destruct (adapter_cls adapter); try done;
    unfold OpenAI_generate_text, Cohere_generate_text,
      Anthropic_generate_text, HuggingFaceInferenceAPI_generate_text,
      requests_post;
    match goal with
    | |- context [net ?r] =>
        specialize (Hfail r); destruct (net r) as [why|status body]
    end; try done; simpl; unfold raise_for_status; simpl;
    (replace ((400 <=? status) && (status <? 600)) with true
       by (symmetry; apply andb_true_iff; lia)); done.
Qed.

(** X27: [generate_text] of an adapter that goes over HTTP never raises,
    whatever the transport does and whatever the provider answers. *)
Lemma http_adapter_never_raises ext net adapter prompt max_tokens temp :
  over_http adapter →
  ∃ text, generate_text ext net adapter prompt max_tokens temp = Ok text.
Proof.
  intros [Hhf Hmock]. unfold generate_text.
  destruct (adapter_cls adapter); try done;
    unfold OpenAI_generate_text, Cohere_generate_text,
      Anthropic_generate_text, HuggingFaceInferenceAPI_generate_text,
      try_except;
    match goal with
    | |- ∃ _, match ?b with _ => _ end = _ => destruct b; eauto
    end.
Qed.

Lemma unavailable_text_has_no_title :
  re_search_label "Title" false unavailable_text = None.
Proof. reflexivity. Qed.

Lemma unavailable_text_has_no_description :
  re_search_label "Description" true unavailable_text = None.
Proof. reflexivity. Qed.

(** *** Difficulty adaptation *)

(** The paths of [adapt_content]. *)
Lemma adapt_content_hit env content cid target s v :
  when_truthy pystr_truthy (cache_get env s (adapted_cache_key cid target))
  = Some v →
  adapt_content env content cid target s = (json_loads (ext env) v, s).
Proof. intros Hv. unfold adapt_content. by rewrite Hv. Qed.

Lemma adapt_content_unchanged env content cid target s :
  cache_miss env s (adapted_cache_key cid target) →
  difficulty_base content = target →
  adapt_content env content cid target s
  = (Ok (unchanged_result content),
     (cache_set env (adapted_cache_key cid target)
        (json_dumps (unchanged_result content)) CACHE_DURATION s).2).
Proof.
  intros Hmiss Heq. unfold adapt_content. rewrite Hmiss.
  apply Z.eqb_eq in Heq. by rewrite Heq.
Qed.

Lemma adapt_content_generated env content cid target s :
  cache_miss env s (adapted_cache_key cid target) →
  difficulty_base content ≠ target →
  adapt_content env content cid target s
  = (do adapter <- current_adapter env;
     do adaptation <- adapter_generate_text env adapter
                        (adaptation_prompt content target) 300 (4 # 10);
     do _ <- cache_set env (adapted_cache_key cid target)
               (json_dumps (adapted_result content target adaptation))
               CACHE_DURATION;
     ret (adapted_result content target adaptation)) s.
Proof.
  intros Hmiss Hne. unfold adapt_content. rewrite Hmiss.
  apply Z.eqb_neq in Hne. by rewrite Hne.
Qed.

(** The claim of C1 fails: with the OpenAI adapter and a transport that is
    down, adapting [loops] from difficulty 2 to 4 gives [adapted = True],
    the text of the adapter as description and no error field. *)
Lemma adapt_transport_failure_counterexample :
  let env := env_at 0 openai school down empty_file in
  let result := (adapt_content_difficulty env 1 None 4 fresh).1 in
  transport_fails (net env)
  ∧ difficulty_base loops ≠ 4
  ∧ assoc "adapted" result = Some (JBool true)
  ∧ assoc "description" result ≠ Some (JStr (description loops))
  ∧ assoc "error" result = None.
Proof.
  split; [by intros r|]. split; [done|]. by vm_compute.
Qed.

(** C1, amended: for a content item and a target other than its base
    difficulty, with nothing usable in the cache, a call does not raise.
    When the transport of an adapter that goes over HTTP fails, the
    adapter answers with its fixed text, and the call returns
    [adapted = True], the original title, that text as description and no
    error field.  When the adapter cannot be obtained, the call returns
    [adapted = False], a populated error field and the original title
    under [original_title]. *)
Theorem adapt_transport_failure (env : Env) (cid : Z) (uid : option Z)
    (target : Z) (s : State) (content : Content) :
  objects_get "Content" content_pk (db env) 0 (contents (db env)) cid
  = Ok content →
  difficulty_base content ≠ target →
  cache_miss env s (adapted_cache_key cid target) →
  let result := (adapt_content_difficulty env cid uid target s).1 in
  (∀ adapter p,
     get_current_adapter (ext env) (settings env) (process s)
     = (Ok adapter, p) →
     over_http adapter → transport_fails (net env) →
     assoc "adapted" result = Some (JBool true)
     ∧ assoc "title" result = Some (JStr (title content))
     ∧ assoc "description" result = Some (JStr unavailable_text)
     ∧ assoc "error" result = None)
  ∧ (∀ e p,
       get_current_adapter (ext env) (settings env) (process s)
       = (Raise e, p) →
       assoc "adapted" result = Some (JBool false)
       ∧ assoc "error" result
         = Some (JStr ("Could not adapt content: " +:+ exn_str e))
       ∧ assoc "original_title" result = Some (JStr (title content))
       ∧ assoc "title" result = None
       ∧ assoc "description" result = None).
Proof.
  intros Hget Hne Hmiss result. split.
  - intros adapter p Hadapter Hhttp Hfail.
    assert (result = adapted_result content target unavailable_text) as ->.
    { subst result. unfold adapt_content_difficulty. rewrite Hget.
      rewrite adapt_content_generated by done.
      unfold bind, current_adapter. rewrite Hadapter.
      unfold adapter_generate_text.
      by rewrite http_adapter_contains_failure. }
    unfold adapted_result.
    by rewrite unavailable_text_has_no_title,
      unavailable_text_has_no_description.
  - intros e p Hadapter.
    assert (result = error_result e (title content)) as ->; [|done].
    subst result. unfold adapt_content_difficulty. rewrite Hget.
    rewrite adapt_content_generated by done.
    unfold bind, current_adapter. by rewrite Hadapter.
Qed.

Lemma adapt_transport_failure_witness :
  let env := env_at 0 openai school down empty_file in
  let result := (adapt_content_difficulty env 1 None 4 fresh).1 in
  let env' := env_at 0 keyless school down empty_file in
  let result' := (adapt_content_difficulty env' 1 None 4 fresh).1 in
  (assoc "adapted" result = Some (JBool true)
   ∧ assoc "title" result = Some (JStr "Loops")
   ∧ assoc "description" result = Some (JStr unavailable_text)
   ∧ assoc "error" result = None)
  ∧ (assoc "adapted" result' = Some (JBool false)
     ∧ assoc "error" result'
       = Some (JStr "Could not adapt content: OpenAI API key not found")
     ∧ assoc "original_title" result' = Some (JStr "Loops")
     ∧ assoc "title" result' = None
     ∧ assoc "description" result' = None).
Proof.
  intros env result env' result'. split.
  - refine (proj1 (adapt_transport_failure env 1 None 4 fresh loops
                     eq_refl _ eq_refl)
              {| adapter_cls := OpenAIAdapter; api_key := "sk-test";
                 model := "gpt-3.5-turbo" |}
              {| environ := {["OPENAI_API_KEY" := "sk-test"]};
                 _current_adapter :=
                   Some {| adapter_cls := OpenAIAdapter;
                           api_key := "sk-test";
                           model := "gpt-3.5-turbo" |} |}
              _ _ _).
    + done.
    + by vm_compute.
    + by split.
    + by intros r.
  - refine (proj2 (adapt_transport_failure env' 1 None 4 fresh loops
                     eq_refl _ eq_refl)
              (Exn ValueError "OpenAI API key not found")
              {| environ := ∅; _current_adapter := None |} _).
    + done.
    + by vm_compute.
Defined.

(** The claim of C3 fails: [recursion] was adapted from difficulty 4 to 5,
    which put the rewritten text in the cache; its base difficulty was
    then raised to 5.  An hour later a call with target 5, which is now the
    base difficulty, returns the rewritten title with [adapted = True]. *)
Lemma adapt_same_difficulty_counterexample :
  let before := env_at 0 openai school (answers rewritten) empty_file in
  let s1 := (adapt_content_difficulty before 2 None 5 fresh).2 in
  let after := env_at 3600 openai school_raised down empty_file in
  let result := (adapt_content_difficulty after 2 None 5 s1).1 in
  objects_get "Content" content_pk (db after) 0 (contents (db after)) 2
  = Ok recursion_raised
  ∧ difficulty_base recursion_raised = 5
  ∧ assoc "adapted" result = Some (JBool true)
  ∧ assoc "title" result = Some (JStr "Calls within calls")
  ∧ assoc "title" result ≠ Some (JStr (title recursion_raised)).
Proof. by vm_compute. Qed.

(** C3, amended: when the target is the base difficulty of the content
    item and the cache holds nothing usable under the key of the call, the
    call returns the title and the description of the item with
    [adapted = False], does not call [generate_text] and does not touch the
    adapter, whatever the settings and the transport are; when the cache
    holds a usable entry, the call returns what the entry decodes to, also
    without a call to [generate_text]. *)
Theorem adapt_same_difficulty (env : Env) (cid : Z) (uid : option Z)
    (s : State) (content : Content) :
  objects_get "Content" content_pk (db env) 0 (contents (db env)) cid
  = Ok content →
  let target := difficulty_base content in
  let out := adapt_content_difficulty env cid uid target s in
  (cache_miss env s (adapted_cache_key cid target) →
   assoc "title" out.1 = Some (JStr (title content))
   ∧ assoc "description" out.1 = Some (JStr (description content))
   ∧ assoc "adapted" out.1 = Some (JBool false)
   ∧ generate_text_calls out.2 = generate_text_calls s
   ∧ process out.2 = process s)
  ∧ (∀ v,
       when_truthy pystr_truthy
         (cache_get env s (adapted_cache_key cid target)) = Some v →
       out = (match json_loads (ext env) v with
              | Ok d => d
              | Raise e => error_result e (title content)
              end, s)).
Proof.
  intros Hget target out. split.
  - intros Hmiss.
    assert (out = (unchanged_result content,
                   (cache_set env (adapted_cache_key cid target)
                      (json_dumps (unchanged_result content))
                      CACHE_DURATION s).2)) as ->; [|done].
    subst out. unfold adapt_content_difficulty. rewrite Hget.
    by rewrite adapt_content_unchanged.
  - intros v Hv. subst out. unfold adapt_content_difficulty. rewrite Hget.
    rewrite (adapt_content_hit _ _ _ _ _ v) by done.
    by destruct (json_loads (ext env) v).
Qed.

Lemma adapt_same_difficulty_witness :
  let env := env_at 0 keyless school down empty_file in
  let out := adapt_content_difficulty env 1 None 2 fresh in
  assoc "title" out.1 = Some (JStr "Loops")
  ∧ assoc "description" out.1 = Some (JStr "Repeat a step.")
  ∧ assoc "adapted" out.1 = Some (JBool false)
  ∧ generate_text_calls out.2 = []
  ∧ process out.2 = process fresh.
Proof.
  intros env out.
  exact (proj1 (adapt_same_difficulty env 1 None fresh loops eq_refl)
           eq_refl).
Defined.

End GeneratorFacts.

(** ** Themed explanations and the cache *)
Module ExplanationFacts.
Import Spec Fixtures Samples GeneratorFacts.

Example curated_file_lookup :
  _get_curated_explanation curated_file "loops" "space" None = Some orbit.
Proof. reflexivity. Qed.

Example curated_first :
  (generate_themed_explanation
     (env_at 0 openai school (answers carousel) curated_file)
     "loops" "space" None None fresh).1 = Text orbit.
Proof. by vm_compute. Qed.

(** The paths of [generate_themed_explanation]. *)
Lemma themed_hit env concept theme age base s v :
  when_truthy pystr_truthy
    (cache_get env s (explanation_cache_key concept theme age)) = Some v →
  generate_themed_explanation env concept theme age base s = (v, s).
Proof. intros Hv. unfold generate_themed_explanation. by rewrite Hv. Qed.

Lemma themed_curated env concept theme age base s text :
  cache_miss env s (explanation_cache_key concept theme age) →
  when_truthy truthy
    (_get_curated_explanation (explanations_file env) concept theme age)
  = Some text →
  generate_themed_explanation env concept theme age base s
  = (Text text,
     (cache_set env (explanation_cache_key concept theme age) (Text text)
        CACHE_DURATION s).2).
Proof.
  intros Hmiss Hc. unfold generate_themed_explanation.
  by rewrite Hmiss, Hc.
Qed.

(** When the [try] of the generation does not raise, its text is in the
    cache for [CACHE_DURATION]. *)
Lemma generate_explanation_cached env key prompt s r s' :
  generate_explanation env key prompt s = (Ok r, s') →
  cache s' !! key = Some (r, now env + CACHE_DURATION).
Proof.
  unfold generate_explanation, bind, current_adapter, adapter_generate_text,
    ret.
  destruct (get_current_adapter _ _ _) as [[adapter|e] p]; [|done].
  destruct (generate_text _ _ _ _ _ _) as [text|e]; [|done].
  intros [= <- <-]. apply cache_set_lookup.
Qed.

(** The claim of C2 fails: an explanation of loops was generated, which
    put it in the cache; a curator then added a curated explanation.  An
    hour later the call still returns the generated text. *)
Lemma curated_explanation_counterexample :
  let before := env_at 0 openai school (answers carousel) empty_file in
  let s1 :=
    (generate_themed_explanation before "loops" "space" None None fresh).2 in
  let after := env_at 3600 openai school (answers carousel) curated_file in
  _get_curated_explanation (explanations_file after) "loops" "space" None
  = Some orbit
  ∧ (generate_themed_explanation after "loops" "space" None None s1).1
    = Text carousel
  ∧ Text carousel ≠ Text orbit.
Proof. by vm_compute. Qed.

(** C2, amended: when the first curated entry that matches
    (concept, theme, age group) has a text that is not empty, and the cache
    holds nothing usable under the key of the call, the call returns
    exactly that text and does not call [generate_text]; when the cache
    holds a usable entry, the call returns the cached value, also without
    a call to [generate_text]. *)
Theorem curated_explanation_returned (env : Env) (concept theme : string)
    (age base : option string) (s : State) (items : list CuratedItem)
    (item : CuratedItem) (text : string) :
  explanations_file env = Document (Some items) →
  List.find (matching concept theme age) items = Some item →
  item_explanation item = Some text →
  text ≠ "" →
  let key := explanation_cache_key concept theme age in
  let out := generate_themed_explanation env concept theme age base s in
  (cache_miss env s key →
   out.1 = Text text
   ∧ generate_text_calls out.2 = generate_text_calls s
   ∧ process out.2 = process s)
  ∧ (∀ v, when_truthy pystr_truthy (cache_get env s key) = Some v →
          out = (v, s)).
Proof.
  intros Hfile Hfind Htext Hne key out. subst key out. split.
  - intros Hmiss.
    rewrite (themed_curated _ _ _ _ _ _ text); [done|done|].
    unfold _get_curated_explanation. rewrite Hfile. simpl.
    rewrite Hfind, Htext. simpl. by destruct text.
  - intros v Hv. by apply themed_hit.
Qed.

Lemma curated_explanation_returned_witness :
  let env := env_at 0 openai school (answers carousel) curated_file in
  let out := generate_themed_explanation env "loops" "space" None None fresh in
  out.1 = Text orbit
  ∧ generate_text_calls out.2 = []
  ∧ process out.2 = process fresh.
Proof.
  intros env out.
  refine (proj1 (curated_explanation_returned env "loops" "space" None None
                   fresh _ _ orbit eq_refl eq_refl eq_refl _) eq_refl).
  discriminate.
Defined.


Lemma themed_cached_again env concept theme age base s r1 s1 :
  generate_themed_explanation env concept theme age base s = (r1, s1) →
  pystr_truthy r1 = true →
  (cache_miss env s (explanation_cache_key concept theme age) →
   when_truthy truthy
     (_get_curated_explanation (explanations_file env) concept theme age)
   = None →
   ∀ e s',
     generate_explanation env (explanation_cache_key concept theme age)
       (explanation_prompt concept theme age base) s ≠ (Raise e, s')) →
  ∃ expiry,
    now env < expiry
    ∧ (cache_miss env s (explanation_cache_key concept theme age) →
       expiry = now env + CACHE_DURATION)
    ∧ ∀ t, t < expiry →
           generate_themed_explanation (at_time t env) concept theme age
             base s1 = (r1, s1).
Proof.
  intros Hcall Htruthy Hok.
  assert (∀ e, cache s1 !! explanation_cache_key concept theme age
               = Some (r1, e) →
          ∀ t, t < e →
               generate_themed_explanation (at_time t env) concept theme age
                 base s1 = (r1, s1)) as Hagain.
  { intros e He t Ht. apply themed_hit. by eapply live_entry_hit. }
  unfold generate_themed_explanation in Hcall.
  destruct (when_truthy pystr_truthy (cache_get env s _)) as [v|] eqn:Hc.
  { simplify_eq. apply when_truthy_Some in Hc as [Hc _].
    apply cache_get_Some in Hc as (e & He & Hlt).
    exists e. split; [done|]. split; [|by apply Hagain].
    intros Hmiss. by destruct (live_entry_no_miss env s1 _ r1 e He). }
  assert (0 < CACHE_DURATION) as Hpos by done.
  destruct (when_truthy truthy (_get_curated_explanation _ _ _ _))
    as [c|] eqn:Hcur.
  { simplify_eq. exists (now env + CACHE_DURATION).
    split; [lia|]. split; [done|]. apply Hagain. apply cache_set_lookup. }
  destruct (generate_explanation env _ _ s) as [[r|e] s'] eqn:Hgen.
  - simplify_eq. exists (now env + CACHE_DURATION).
    split; [lia|]. split; [done|]. apply Hagain.
    by eapply generate_explanation_cached.
  - by destruct (Hok Hc eq_refl e s').
Qed.




(** A curated explanation served without any API key: the generation
    would raise, the call does not reach it, and the second call returns
    the same text from the cache. *)
Example curated_without_key_cached :
  let env := env_at 0 keyless school down curated_file in
  let first := generate_themed_explanation env "loops" "space" None None
                 fresh in
  first.1 = Text orbit
  ∧ (∃ e s', generate_explanation env
               (explanation_cache_key "loops" "space" None)
               (explanation_prompt "loops" "space" None None) fresh
             = (Raise e, s'))
  ∧ ∃ expiry,
      0 < expiry
      ∧ ∀ t, t < expiry →
             generate_themed_explanation (at_time t env) "loops" "space"
               None None first.2 = first.
Proof.
  intros env first. split; [by vm_compute|]. split; [by eexists _, _|].
  destruct (themed_cached_again env "loops" "space" None None fresh
              first.1 first.2) as (expiry & Hpos & _ & Hagain).
  - apply surjective_pairing.
  - by vm_compute.
  - intros _ Hcur. vm_compute in Hcur. discriminate.
  - exists expiry. split; [done|]. intros t Ht.
    rewrite (Hagain t Ht). symmetry. apply surjective_pairing.
Qed.

End ExplanationFacts.

(** ** The model information *)
Module UtilsFacts.
Import Fixtures Samples.

Example mock_is_a_MockAdapter : isinstance mock MockAdapter = true.
Proof. reflexivity. Qed.

(** With no setting at all the adapter type is the mock one, of which no
    instance can be built: the call raises. *)
Example default_model_info :
  ∃ msg,
    get_model_info (env_at 0 unset school down empty_file) fresh
    = (Raise (Exn TypeError msg), fresh).
Proof. by eexists. Qed.

Lemma MockAdapter_not_in_globals :
  bool_decide ("MockAdapter" ∈ utils_globals) = false.
Proof. by vm_compute. Qed.

(** Whatever [get_model_info] returns, [is_mock] is false in it. *)
Lemma model_info_not_mock env s info s' :
  get_model_info env s = (Ok info, s') → is_mock info = false.
Proof.
  unfold get_model_info, bind, current_adapter, ret.
  destruct (get_current_adapter _ _ _) as [[adapter|e] p]; [|done].
  rewrite MockAdapter_not_in_globals. by intros [= <- _].
Qed.

(** C10: whatever the active adapter is, the mock one included,
    [get_model_info] returns the name of its class with [is_mock] false,
    because the name [MockAdapter] is not among the globals of the
    module. *)
Theorem model_info_is_never_mock (env : Env) (s : State)
    (adapter : ModelAdapter) :
  _current_adapter (process s) = Some adapter →
  ("MockAdapter" ∉ utils_globals)
  ∧ get_model_info env s
    = (Ok {| adapter_type := class_name (adapter_cls adapter);
             is_mock := false;
             status := "active" |}, s).
Proof.
  intros Hactive. split.
  { intros Hin. pose proof MockAdapter_not_in_globals as Hout.
    by rewrite bool_decide_eq_true_2 in Hout. }
  unfold get_model_info, bind, current_adapter, get_current_adapter, ret.
  rewrite Hactive, MockAdapter_not_in_globals. by destruct s.
Qed.

Lemma model_info_is_never_mock_witness :
  isinstance mock MockAdapter = true
  ∧ get_model_info (env_at 0 unset school down empty_file)
      (with_adapter mock)
    = (Ok {| adapter_type := "MockAdapter"; is_mock := false;
             status := "active" |}, with_adapter mock).
Proof.
  split; [reflexivity|].
  exact (proj2 (model_info_is_never_mock
                  (env_at 0 unset school down empty_file)
                  (with_adapter mock) mock eq_refl)).
Defined.

End UtilsFacts.

(** * Further properties *)

(** ** Ranking and estimation *)
Module RankingFacts.
Import Spec Terms RecommendationFacts DifficultyFacts.

(** X1: no entry of the returned list is an item on which the user has a
    progress record at 80% or more. *)
Theorem recommendations_skip_completed (db : Database) (uid count : Z)
    (ct : option string) (entries : list Entry) (e : Entry)
    (p : UserProgress) :
  get_personalized_recommendations db uid count ct = Ok entries →
  e ∈ entries →
  p ∈ progresses db →
  progress_user_id p = uid →
  progress_content_id p = Some (entry_content_id e) →
  (completion_percentage p < 80)%Q.
Proof.
  intros Hres He Hp Hu Hc.
  destruct (entry_row _ _ _ _ _ _ Hres He) as (u & a & _ & Ha & ->).
  apply annotated_query_row in Ha as (c & -> & _ & Hex).
  simpl in Hc. rewrite sql_in_false in Hex.
  destruct (Qlt_le_dec (completion_percentage p) 80) as [Hlt|Hge]; [done|].
  exfalso. apply Qle_bool_iff in Hge.
  destruct (Hex (progress_content_id p)) as [_ Hne]; [|by rewrite Hc in Hne].
  unfold values_list_content_id. apply list_elem_of_fmap. exists p.
  split; [done|]. by apply in_UserProgress_filter.
Qed.

Lemma recommendations_skip_completed_witness :
  (40 < 80)%Q.
Proof.
  exact (recommendations_skip_completed Fixtures.school 7 5 None _
           {| entry_content_id := 2; entry_title := "Recursion";
              entry_content_type := "lesson"; entry_difficulty := 4;
              entry_relevance_score := 11 |}
           {| progress_user_id := 7; progress_content_id := Some 2;
              completion_percentage := 40 |}
           eq_refl (list_elem_of_here _ _)
           (list_elem_of_further _ _ _ (list_elem_of_here _ _))
           eq_refl eq_refl).
Defined.

(** X2: when the user has a record at 80% or more that points to no
    content item (a record of a challenge), the exclusion keeps no row,
    since [NOT (id IN (..., NULL))] is never true: the list is empty. *)
Theorem recommendations_empty_after_null (db : Database) (uid count : Z)
    (ct : option string) (p : UserProgress) :
  p ∈ progresses db →
  progress_user_id p = uid →
  (80 <= completion_percentage p)%Q →
  progress_content_id p = None →
  get_personalized_recommendations db uid count ct = Ok [].
Proof.
  intros Hp Hu Hge Hnull.
  destruct (recommendations_shape db uid count ct) as (rows & Heq & Hrows).
  rewrite Heq. destruct Hrows as [->|(u & _ & _ & ->)]; [done|].
  assert (annotated_query db uid (user_age_group_id u) ct = []) as Hnone.
  { destruct (annotated_query _ _ _ _) as [|a l] eqn:Hq; [done|]. exfalso.
    assert (a ∈ annotated_query db uid (user_age_group_id u) ct) as Ha
      by (rewrite Hq; constructor).
    apply annotated_query_row in Ha as (c & _ & _ & Hex).
    rewrite sql_in_false in Hex.
    destruct (Hex None) as [Hne _]; [|done].
    unfold values_list_content_id. apply list_elem_of_fmap. exists p.
    split; [done|]. apply in_UserProgress_filter.
    split; [done|]. split; [done|]. by apply Qle_bool_iff. }
  unfold ranked. rewrite Hnone. by destruct (Z.to_nat count).
Qed.

Lemma recommendations_empty_after_null_witness :
  get_personalized_recommendations MoreSamples.school_with_challenge 7 5 None
  = Ok [].
Proof.
  apply (recommendations_empty_after_null MoreSamples.school_with_challenge
           7 5 None
           {| progress_user_id := 7; progress_content_id := None;
              completion_percentage := 100 |}).
  - apply list_elem_of_here.
  - reflexivity.
  - by vm_compute.
  - reflexivity.
Defined.

(** X3: when a content type is asked for, every entry of the returned
    list is of that type. *)
Theorem recommendations_of_asked_type (db : Database) (uid count : Z)
    (t : string) (entries : list Entry) (e : Entry) :
  get_personalized_recommendations db uid count (Some t) = Ok entries →
  t ≠ "" →
  e ∈ entries →
  entry_content_type e = t.
Proof.
  intros Hres Ht He.
  destruct (entry_row _ _ _ _ _ _ Hres He) as (u & a & _ & Ha & ->).
  apply annotated_query_row in Ha as (c & -> & Hc & _). simpl.
  unfold filter_content_type in Hc. destruct t as [|ch t]; [done|].
  simpl in Hc. apply list_elem_of_In, filter_In in Hc as [_ Heq].
  by apply String.eqb_eq in Heq.
Qed.

Lemma recommendations_of_asked_type_witness :
  entry_content_type
    {| entry_content_id := 2; entry_title := "Recursion";
       entry_content_type := "lesson"; entry_difficulty := 4;
       entry_relevance_score := 11 |} = "lesson".
Proof.
  apply (recommendations_of_asked_type Fixtures.school 7 5 "lesson" _ _
           eq_refl).
  - discriminate.
  - apply list_elem_of_here.
Defined.

(** X4: the relevance score an entry is reported with is 5 for a
    difficulty of at most 3 and 1 above, plus 10 when the user has a
    progress record on the item. *)
Theorem recommendations_score (db : Database) (uid count : Z)
    (ct : option string) (entries : list Entry) (e : Entry) :
  get_personalized_recommendations db uid count ct = Ok entries →
  e ∈ entries →
  entry_relevance_score e = reported_score db uid e.
Proof.
  intros Hres He.
  destruct (entry_row _ _ _ _ _ _ Hres He) as (u & a & _ & Ha & ->).
  apply annotated_query_row in Ha as (c & -> & _ & _).
  unfold reported_score, format_entry, annotate. simpl. f_equal.
  destruct (started db uid (content_pk c)) eqn:Hs.
  - apply started_iff, sql_in_true in Hs. by rewrite Hs.
  - destruct (sql_in _ _) as [[]|] eqn:Hin; [|done..].
    apply sql_in_true, started_iff in Hin. congruence.
Qed.

Lemma recommendations_score_witness :
  11 = reported_score Fixtures.school 7
         {| entry_content_id := 2; entry_title := "Recursion";
            entry_content_type := "lesson"; entry_difficulty := 4;
            entry_relevance_score := 11 |}.
Proof.
  exact (recommendations_score Fixtures.school 7 5 None _ _ eq_refl
           (list_elem_of_here _ _)).
Defined.

(** X5: when fewer than 70% of the completed records of a user are at 90%
    or more, the estimator returns the mean difficulty of the completed
    content, rounded and clamped to 1..5, without the increment. *)
Theorem difficulty_without_boost (db : Database) (uid : Z) :
  (∀ k, unavailable db k = false) →
  completed_records db uid ≠ [] →
  ¬ high_performer (completed_records db uid) →
  completed_difficulties db (completed_records db uid) ≠ [] →
  get_appropriate_difficulty_level db uid
  = Ok (clamp
          (round
             (mean (completed_difficulties db (completed_records db uid))))).
Proof.
  intros Hup Hne Hlow Hds.
  unfold get_appropriate_difficulty_level, difficulty_level_body, round_trip.
  rewrite !Hup, completed_records_filter. simpl.
  destruct (completed_records db uid) as [|p ps] eqn:Hrec; [done|].
  rewrite <- Hrec in *. replace (nonempty _) with true by (by rewrite Hrec).
  simpl. unfold truediv.
  assert (length (completed_records db uid) ≠ 0%nat) as Hlen
    by (rewrite Hrec; simpl; lia).
  destruct (Z.of_nat (length (completed_records db uid)) =? 0) eqn:Hz;
    [apply Z.eqb_eq in Hz; lia|].
  simpl. unfold filter_completion_gte.
  rewrite ratio_at_least_70_percent by done.
  rewrite bool_decide_eq_false_2 by exact Hlow.
  unfold Avg. rewrite omap_id_fmap.
  fold (completed_difficulties db (completed_records db uid)).
  destruct (completed_difficulties db (completed_records db uid))
    as [|d ds] eqn:Hd; [done|].
  fold (mean (d :: ds)).
  destruct (Qeq_bool (mean (d :: ds)) 0) eqn:Hm; [|done].
  apply round_zero_clamped in Hm. by rewrite Hm.
Qed.

Lemma difficulty_without_boost_witness :
  get_appropriate_difficulty_level MoreSamples.steady 7 = Ok 4.
Proof.
  apply (difficulty_without_boost MoreSamples.steady 7).
  - reflexivity.
  - vm_compute. discriminate.
  - vm_compute. lia.
  - vm_compute. discriminate.
Defined.

End RankingFacts.

(** ** The adapters *)
Module AdapterFacts.
Import Spec Terms Fixtures Samples MoreSamples GeneratorFacts.

Lemma generate_text_never_raises_witness :
  ∃ text,
    generate_text externals down
      {| adapter_cls := CohereAdapter; api_key := "k"; model := "command" |}
      "Explain loops." 200 (7 # 10) = Ok text.
Proof. apply http_adapter_never_raises. by split. Defined.

Lemma eqb_of_neq (a b : string) : a ≠ b → String.eqb a b = false.
Proof. apply String.eqb_neq. Qed.

(** X7: an adapter type that names none of the classes, the default
    [mock] included, gives no adapter: the class [MockAdapter] is abstract,
    so that the call raises [TypeError]; it leaves the environment
    variables alone even when the settings hold an API key, and stores no
    adapter, so that every later call raises again. *)
Theorem unknown_adapter_type_raises (ext : Externals)
    (settings : Settings) (p : Process) :
  _current_adapter p = None →
  (∀ t, ADAPTER_TYPE settings = Some t → unknown t) →
  ∃ msg, get_current_adapter ext settings p = (Raise (Exn TypeError msg), p).
Proof.
  intros Hnone Hunknown. unfold get_current_adapter. rewrite Hnone.
  assert (unknown (default "mock" (ADAPTER_TYPE settings)))
    as (H1 & H2 & H3 & H4 & H5).
  { destruct (ADAPTER_TYPE settings) as [t|]; [by apply Hunknown|].
    by repeat split. }
  unfold key_variable, model_kwargs, key_variable, get_model_adapter.
  rewrite !(eqb_of_neq _ _ H1), !(eqb_of_neq _ _ H2), !(eqb_of_neq _ _ H3),
    !(eqb_of_neq _ _ H4), !(eqb_of_neq _ _ H5). simpl.
  assert (∀ name : option string,
            (match name with
             | Some name => if truthy name then None else None
             | None => None
             end : option string) = None) as ->
    by (by intros [[]|]).
  assert (p = {| environ := environ p; _current_adapter := None |}) as Hp
    by (destruct p; simpl in *; by subst).
  eexists.
  destruct (API_KEY settings) as [k|]; [destruct (truthy k)|];
    destruct (String.eqb _ "mock"); simpl; rewrite <- Hp; reflexivity.
Qed.

Lemma unknown_adapter_type_raises_witness :
  ∃ msg,
    get_current_adapter externals
      {| ADAPTER_TYPE := Some "OpenAi-4"; MODEL_NAME := Some "gpt-4";
         API_KEY := Some "sk-test" |}
      {| environ := ∅; _current_adapter := None |}
    = (Raise (Exn TypeError msg),
       {| environ := ∅; _current_adapter := None |}).
Proof.
  apply (unknown_adapter_type_raises externals
           {| ADAPTER_TYPE := Some "OpenAi-4"; MODEL_NAME := Some "gpt-4";
              API_KEY := Some "sk-test" |}
           {| environ := ∅; _current_adapter := None |} eq_refl).
  intros t [= <-]. by repeat split.
Defined.

(** The environment variable and the class of a keyed adapter type. *)
Lemma keyed_cases t :
  keyed t →
  ∃ var, key_variable t = Some var
    ∧ ∀ environ name,
        (∀ key, environ !! var = Some key → truthy key = true →
           ∃ a, get_model_adapter environ t name = Ok a
                ∧ api_key a = key ∧ over_http a)
        ∧ (when_truthy truthy (environ !! var) = None →
           ∃ msg, get_model_adapter environ t name
                  = Raise (Exn ValueError msg)).
Proof.
  unfold keyed, key_variable, get_model_adapter.
  intros [Ht|[Ht|[Ht|Ht]]]; rewrite Ht; simpl; eexists;
    (split; [reflexivity|]); intros environ name; unfold init_with_key;
    (split; [intros key -> ->; eexists; by repeat split|]);
    destruct (environ !! _) as [key|]; simpl;
    try destruct (truthy key); intros ?; by eauto.
Qed.

(** X8: with an adapter type that reads an API key, when neither the
    settings nor the environment variable of the type hold a key that is
    not empty, no adapter is built: the call raises [ValueError] and the
    process is left as it was, so that the next call tries again. *)
Theorem adapter_needs_a_key (ext : Externals) (settings : Settings)
    (p : Process) (t : string) :
  _current_adapter p = None →
  ADAPTER_TYPE settings = Some t →
  keyed t →
  when_truthy truthy (API_KEY settings) = None →
  (∀ var, key_variable t = Some var →
          when_truthy truthy (environ p !! var) = None) →
  ∃ msg,
    get_current_adapter ext settings p = (Raise (Exn ValueError msg), p).
Proof.
  intros Hnone Ht Hkeyed Hkey Henv.
  destruct (keyed_cases t Hkeyed) as (var & Hvar & Hcases).
  unfold get_current_adapter. rewrite Hnone, Ht. simpl.
  assert (match API_KEY settings with
          | Some key =>
              if truthy key
              then match key_variable t with
                   | Some variable =>
                       environ_setitem variable key (environ p)
                   | None => Ok (environ p)
                   end
              else Ok (environ p)
          | None => Ok (environ p)
          end = Ok (environ p)) as ->.
  { destruct (API_KEY settings) as [k|]; [|done]. simpl in Hkey.
    by destruct (truthy k). }
  destruct (Hcases (environ p) (model_kwargs t (MODEL_NAME settings)))
    as [_ Hraise].
  destruct (Hraise (Henv var Hvar)) as [msg ->].
  exists msg. destruct p. simpl in *. by subst.
Qed.

Lemma adapter_needs_a_key_witness :
  ∃ msg,
    get_current_adapter externals keyless
      {| environ := {["OPENAI_API_KEY" := ""]}; _current_adapter := None |}
    = (Raise (Exn ValueError msg),
       {| environ := {["OPENAI_API_KEY" := ""]};
          _current_adapter := None |}).
Proof.
  apply (adapter_needs_a_key externals keyless
           {| environ := {["OPENAI_API_KEY" := ""]};
              _current_adapter := None |} "openai" eq_refl eq_refl).
  - by left.
  - reflexivity.
  - intros var [= <-]. by vm_compute.
Defined.

(** X9: with an adapter type that reads an API key and a key in the
    settings, the first call writes the key to the environment variable of
    the type.  A key that holds a NUL is refused by that write: the call
    raises [ValueError] and leaves the process as it was.  With any other
    key the call builds an adapter that holds that key, whatever the
    environment variable was, and stores it; every later call returns the
    same adapter and changes nothing, whatever the settings have
    become. *)
Theorem adapter_is_built_once (ext : Externals) (settings : Settings)
    (p : Process) (t k : string) :
  _current_adapter p = None →
  ADAPTER_TYPE settings = Some t →
  keyed t →
  API_KEY settings = Some k →
  k ≠ "" →
  if has_nul k
  then get_current_adapter ext settings p
       = (Raise (Exn ValueError "embedded null byte"), p)
  else
    ∃ a p',
      get_current_adapter ext settings p = (Ok a, p')
      ∧ api_key a = k
      ∧ over_http a
      ∧ (∀ var, key_variable t = Some var → environ p' !! var = Some k)
      ∧ ∀ settings', get_current_adapter ext settings' p' = (Ok a, p').
Proof.
  intros Hnone Ht Hkeyed Hkey Hk.
  destruct (keyed_cases t Hkeyed) as (var & Hvar & Hcases).
  assert (truthy k = true) as Htruthy by (by destruct k).
  destruct (has_nul k) eqn:Hnul.
  { unfold get_current_adapter. rewrite Hnone, Ht, Hkey. simpl.
    rewrite Htruthy, Hvar. unfold environ_setitem. by rewrite Hnul. }
  unfold get_current_adapter at 1. rewrite Hnone, Ht, Hkey. simpl.
  rewrite Htruthy, Hvar. unfold environ_setitem. rewrite Hnul.
  destruct (Hcases (<[var:=k]> (environ p))
              (model_kwargs t (MODEL_NAME settings))) as [Hok _].
  destruct (Hok k (lookup_insert_eq _ _ _) Htruthy) as (a & -> & Ha & Hhttp).
  eexists _, _. split; [reflexivity|]. split; [done|]. split; [done|].
  split; [intros var' [= <-]; apply lookup_insert_eq|done].
Qed.

Lemma adapter_is_built_once_witness :
  (∃ a p',
     get_current_adapter externals openai
       {| environ := {["OPENAI_API_KEY" := "sk-old"]};
          _current_adapter := None |} = (Ok a, p')
     ∧ api_key a = "sk-test"
     ∧ over_http a
     ∧ (∀ var, key_variable "openai" = Some var →
               environ p' !! var = Some "sk-test")
     ∧ ∀ settings', get_current_adapter externals settings' p' = (Ok a, p'))
  ∧ get_current_adapter externals broken_key
      {| environ := ∅; _current_adapter := None |}
    = (Raise (Exn ValueError "embedded null byte"),
       {| environ := ∅; _current_adapter := None |}).
Proof.
  split.
  - apply (adapter_is_built_once externals openai
             {| environ := {["OPENAI_API_KEY" := "sk-old"]};
                _current_adapter := None |} "openai" "sk-test"
             eq_refl eq_refl).
    + by left.
    + reflexivity.
    + discriminate.
  - apply (adapter_is_built_once externals broken_key
             {| environ := ∅; _current_adapter := None |} "openai"
             (String (ascii_of_N 0) "sk-test") eq_refl eq_refl).
    + by left.
    + reflexivity.
    + discriminate.
Defined.

End AdapterFacts.

(** ** The content generator, further *)
Module GeneratorMoreFacts.
Import Spec Terms Fixtures Samples GeneratorFacts ExplanationFacts.

(** X10: when nothing usable is in the cache, no curated explanation
    matches and the adapter cannot be obtained, the call returns the base
    explanation if there is one that is not empty, and the apology
    otherwise; it stores nothing in the cache and does not call
    [generate_text]. *)
Theorem explanation_falls_back (env : Env) (concept theme : string)
    (age base : option string) (s : State) (e : exn) (p : Process) :
  cache_miss env s (explanation_cache_key concept theme age) →
  when_truthy truthy
    (_get_curated_explanation (explanations_file env) concept theme age)
  = None →
  get_current_adapter (ext env) (settings env) (process s) = (Raise e, p) →
  let out := generate_themed_explanation env concept theme age base s in
  out.1 = Text (default (sorry theme concept) (when_truthy truthy base))
  ∧ cache out.2 = cache s
  ∧ generate_text_calls out.2 = generate_text_calls s.
Proof.
  intros Hmiss Hcur Hadapter out. subst out.
  unfold generate_themed_explanation. rewrite Hmiss, Hcur.
  unfold generate_explanation, bind, current_adapter. rewrite Hadapter.
  simpl. by destruct (when_truthy truthy base).
Qed.

Lemma explanation_falls_back_witness :
  let env := env_at 0 keyless school down empty_file in
  let out := generate_themed_explanation env "loops" "space" None
               (Some "A loop repeats a step.") fresh in
  out.1 = Text "A loop repeats a step."
  ∧ cache out.2 = ∅
  ∧ generate_text_calls out.2 = [].
Proof.
  intros env out.
  refine (explanation_falls_back env "loops" "space" None
            (Some "A loop repeats a step.") fresh
            (Exn ValueError "OpenAI API key not found")
            {| environ := ∅; _current_adapter := None |}
            eq_refl eq_refl _).
  by vm_compute.
Defined.

Lemma append_assoc (a b c : string) : (a +:+ b) +:+ c = a +:+ (b +:+ c).
Proof.
  induction a as [|x a IH]; [done|].
  change (String x ((a +:+ b) +:+ c) = String x (a +:+ (b +:+ c))).
  by f_equal.
Qed.

Lemma explanation_keys_collide (a b c : string) (g : option string) :
  explanation_cache_key (a +:+ ":" +:+ b) c g
  = explanation_cache_key a (b +:+ ":" +:+ c) g.
Proof.
  unfold explanation_cache_key. by rewrite !append_assoc.
Qed.

(** X11: the key of the cache does not tell the concept from the theme:
    an explanation that is in the cache for the concept [a:b] and the theme
    [c] is what a call for the concept [a] and the theme [b:c] returns. *)
Theorem explanation_served_for_other_concept (env : Env) (a b c : string)
    (age base : option string) (s : State) (v : pystr) :
  when_truthy pystr_truthy
    (cache_get env s (explanation_cache_key (a +:+ ":" +:+ b) c age))
  = Some v →
  generate_themed_explanation env a (b +:+ ":" +:+ c) age base s = (v, s).
Proof.
  intros Hv. apply themed_hit. by rewrite <- explanation_keys_collide.
Qed.

Lemma explanation_served_for_other_concept_witness :
  let env := env_at 0 openai school (answers carousel) empty_file in
  let s1 :=
    (generate_themed_explanation env "for:each" "loop" None None fresh).2 in
  generate_themed_explanation (env_at 60 keyless school down empty_file)
    "for" "each:loop" None None s1
  = (Text carousel, s1).
Proof.
  intros env s1.
  apply (explanation_served_for_other_concept
           (env_at 60 keyless school down empty_file) "for" "each" "loop"
           None None s1 (Text carousel)).
  by vm_compute.
Defined.

Lemma find_snoc {A} (f : A → bool) (l : list A) (x : A) :
  List.find f (l ++ [x])
  = match List.find f l with
    | Some y => Some y
    | None => if f x then Some x else None
    end.
Proof.
  induction l as [|y l IH]; simpl; [done|]. by destruct (f y).
Qed.

(** X12: adding a curated explanation to a file that holds a list of
    explanations succeeds, and appends: a lookup for the same concept in
    any letter case, the same theme and the same age group or none still
    returns the text of an earlier entry that matches, and returns the
    added text when there was none. *)
Theorem added_explanation_is_found (items : list CuratedItem)
    (concept theme age explanation concept' : string)
    (age' : option string) :
  lower concept' = lower concept →
  age' = None ∨ age' = Some age →
  let added :=
    add_curated_explanation (Document (Some items)) concept theme age
      explanation in
  added.1 = true
  ∧ _get_curated_explanation added.2 concept' theme age'
    = match _get_curated_explanation (Document (Some items)) concept' theme
              age' with
      | Some text => Some text
      | None => Some explanation
      end.
Proof.
  intros Hconcept Hage added. subst added. split; [done|].
  unfold add_curated_explanation, _get_curated_explanation. simpl.
  rewrite find_snoc.
  destruct (List.find (matching concept' theme age') items); [done|].
  unfold matching. simpl. rewrite Hconcept, !String.eqb_refl.
  by destruct Hage as [->| ->]; simpl; rewrite ?String.eqb_refl.
Qed.

Lemma added_explanation_is_found_witness :
  _get_curated_explanation curated_file "LOOPS" "space" None = Some orbit.
Proof.
  exact (proj2 (added_explanation_is_found [] "Loops" "space" "Kids 5-8"
                  orbit "LOOPS" None eq_refl (or_introl eq_refl))).
Defined.

Lemma skip_colons_and_spaces_text (s : string) :
  starts_with_text s = true → skip_colons_and_spaces s = s.
Proof.
  destruct s as [|c s]; [done|]. simpl. by destruct (colon_or_space c).
Qed.

Lemma rest_of_line_one_line (t rest : string) :
  one_line t = true → rest_of_line (t +:+ newline +:+ rest) = t.
Proof.
  induction t as [|c t IH]; intros Ht; [done|].
  simpl in *. apply andb_true_iff in Ht as [Hc Ht].
  destruct (Ascii.eqb c _); [done|]. by rewrite IH.
Qed.

(** X13: when the answer of the backend starts with [Title: ] followed by
    a line of text, that line is the title of the adapted content. *)
Theorem adapted_title_is_first_line (content : Content) (target : Z)
    (t rest : string) :
  starts_with_text t = true →
  one_line t = true →
  assoc "title"
    (adapted_result content target ("Title: " +:+ t +:+ newline +:+ rest))
  = Some (JStr t).
Proof.
  intros Hstart Hline. unfold adapted_result. simpl.
  destruct t as [|c t]; [done|].
  simpl in Hstart. apply negb_true_iff in Hstart.
  unfold match_label_here. simpl. rewrite Hstart.
  change (String c (t +:+ newline +:+ rest))
    with (String c t +:+ newline +:+ rest).
  by rewrite rest_of_line_one_line.
Qed.

Lemma adapted_title_is_first_line_witness :
  assoc "title" (adapted_result recursion 5 rewritten)
  = Some (JStr "Calls within calls").
Proof.
  exact (adapted_title_is_first_line recursion 5 "Calls within calls"
           "Description: A function may call itself on a smaller input."
           eq_refl eq_refl).
Defined.

(** X26: when the content item does not exist, or the database does not
    answer, the call returns the text of the exception under [error],
    [Unknown] as the original title and [adapted = False]; it changes
    nothing and does not call [generate_text]. *)
Theorem adapt_unknown_content (env : Env) (cid : Z) (uid : option Z)
    (target : Z) (s : State) (e : exn) :
  objects_get "Content" content_pk (db env) 0 (contents (db env)) cid
  = Raise e →
  adapt_content_difficulty env cid uid target s
  = ([("error", JStr ("Could not adapt content: " +:+ exn_str e));
      ("original_title", JStr "Unknown");
      ("adapted", JBool false)], s).
Proof.
  intros Hget. unfold adapt_content_difficulty. by rewrite Hget.
Qed.

Lemma adapt_unknown_content_witness :
  adapt_content_difficulty (env_at 0 openai school down empty_file) 9 None 4
    fresh
  = ([("error",
       JStr "Could not adapt content: Content matching query does not exist.");
      ("original_title", JStr "Unknown");
      ("adapted", JBool false)], fresh).
Proof.
  exact (adapt_unknown_content (env_at 0 openai school down empty_file) 9
           None 4 fresh
           (Exn DoesNotExist "Content matching query does not exist.")
           eq_refl).
Defined.

End GeneratorMoreFacts.

(** ** Dictionaries *)
Module DictFacts.

Lemma dict_get_set_eq {A} (k : string) (v : A) (d : list (string * A)) :
  dict_get k (dict_set k v d) = Some v.
Proof.
  induction d as [|[k' v'] d IH]; simpl.
  - by rewrite String.eqb_refl.
  - destruct (String.eqb k k') eqn:Hk; simpl.
    + by rewrite String.eqb_refl.
    + by rewrite Hk.
Qed.

Lemma dict_get_set_ne {A} (k k' : string) (v : A) (d : list (string * A)) :
  k ≠ k' → dict_get k' (dict_set k v d) = dict_get k' d.
Proof.
  intros Hne. induction d as [|[k0 v0] d IH]; simpl.
  - by rewrite (proj2 (String.eqb_neq k' k)).
  - destruct (String.eqb k k0) eqn:Hk; simpl.
    + apply String.eqb_eq in Hk. subst k0.
      by rewrite (proj2 (String.eqb_neq k' k)).
    + by rewrite IH.
Qed.

Lemma dict_get_set {A} (k k' : string) (v : A) (d : list (string * A)) :
  dict_get k' (dict_set k v d)
  = if String.eqb k k' then Some v else dict_get k' d.
Proof.
  destruct (String.eqb k k') eqn:Hk.
  - apply String.eqb_eq in Hk. subst. apply dict_get_set_eq.
  - apply String.eqb_neq in Hk. by apply dict_get_set_ne.
Qed.

Lemma dict_get_fold {A} (keys : list string) (v : A)
    (d : list (string * A)) (k : string) :
  dict_get k (fold_left (λ d k, dict_set k v d) keys d)
  = if bool_decide (k ∈ keys) then Some v else dict_get k d.
Proof.
  revert d. induction keys as [|k0 keys IH]; intros d; simpl; [done|].
  rewrite IH, dict_get_set.
  destruct (String.eqb k0 k) eqn:Hk.
  - apply String.eqb_eq in Hk. subst.
    rewrite (bool_decide_eq_true_2 (k ∈ k :: keys)) by constructor.
    by case_bool_decide.
  - apply String.eqb_neq in Hk. case_bool_decide as Hin.
    + by rewrite bool_decide_eq_true_2 by (by constructor).
    + rewrite bool_decide_eq_false_2; [done|].
      intros Hin'. inversion Hin'; by subst.
Qed.

(** A dictionary comprehension with one value for all keys. *)
Lemma dict_get_comprehension {A} (keys : list string) (v : A) (k : string) :
  dict_get k (dict_comprehension keys v)
  = if bool_decide (k ∈ keys) then Some v else None.
Proof. unfold dict_comprehension. by rewrite dict_get_fold. Qed.

End DictFacts.

(** ** Hints *)
Module HintFacts.
Import Spec Terms Fixtures Samples MoreSamples GeneratorFacts DictFacts.

Example curated_hint_found :
  _get_curated_hint hints_file 3 1 = Some "Start with a loop.".
Proof. reflexivity. Qed.

Example hint_for_an_attempt :
  (generate_hint (env_at 0 openai school (answers "Use the remainder.")
                    empty_file)
     hints_file challenges 3 (Some 7) "print(1)" 1 fresh).1
  = Text "Use the remainder.".
Proof. by vm_compute. Qed.

(** The steps of a generation leave the cache as it is. *)
Lemma current_adapter_cache env s :
  cache (current_adapter env s).2 = cache s
  ∧ generate_text_calls (current_adapter env s).2 = generate_text_calls s.
Proof.
  unfold current_adapter. by destruct (get_current_adapter _ _ _).
Qed.

Lemma personalized_hint_cache env challenges cid attempt level k s :
  cache (personalized_hint env challenges cid attempt level k s).2 = cache s.
Proof.
  unfold personalized_hint, bind, lift.
  destruct (objects_get _ _ _ _ _ _); [|done].
  pose proof (current_adapter_cache env s) as [Hc _].
  destruct (current_adapter env s) as [[adapter|e] s1]; [|done].
  done.
Qed.

Lemma generic_hint_cache env challenges cid attempt level k s :
  truthy attempt = true →
  cache (generic_hint env challenges cid attempt level k s).2 = cache s.
Proof.
  intros Hattempt. unfold generic_hint, bind, lift. rewrite Hattempt.
  destruct (objects_get _ _ _ _ _ _); [|done].
  pose proof (current_adapter_cache env s) as [Hc _].
  destruct (current_adapter env s) as [[adapter|e] s1]; [|done].
  unfold adapter_generate_text.
  by destruct (generate_text _ _ _ _ _ _).
Qed.

(** The steps of a generation do the same whatever the cache holds. *)
Lemma current_adapter_with_cache env c s :
  current_adapter env (with_cache c s)
  = ((current_adapter env s).1, with_cache c (current_adapter env s).2).
Proof.
  unfold current_adapter, with_cache. simpl.
  by destruct (get_current_adapter _ _ _).
Qed.

Lemma personalized_hint_with_cache env challenges cid attempt level k c s :
  personalized_hint env challenges cid attempt level k (with_cache c s)
  = ((personalized_hint env challenges cid attempt level k s).1,
     with_cache c (personalized_hint env challenges cid attempt level k s).2).
Proof.
  unfold personalized_hint, bind, lift.
  destruct (objects_get _ _ _ _ _ _); [|done].
  rewrite current_adapter_with_cache.
  destruct (current_adapter env s) as [[adapter|e] s1]; [|done].
  done.
Qed.

Lemma generic_hint_with_cache env challenges cid attempt level k c s :
  truthy attempt = true →
  generic_hint env challenges cid attempt level k (with_cache c s)
  = ((generic_hint env challenges cid attempt level k s).1,
     with_cache c (generic_hint env challenges cid attempt level k s).2).
Proof.
  intros Hattempt. unfold generic_hint, bind, lift. rewrite Hattempt.
  destruct (objects_get _ _ _ _ _ _); [|done].
  rewrite current_adapter_with_cache.
  destruct (current_adapter env s) as [[adapter|e] s1]; [|done].
  unfold adapter_generate_text. simpl.
  by destruct (generate_text _ _ _ _ _ _).
Qed.

(** X14: a call with an attempt of the user takes nothing from the cache,
    writes nothing to it, and does not look at the curated hints: the
    cache is the same after the call, and with any other cache and any
    other curated file the call returns the same hint and does the same
    to the rest of the state. *)
Theorem hint_for_attempt_bypasses_cache (env : Env) (file file' : HintsFile)
    (challenges : list Challenge) (cid : Z) (uid : option Z)
    (attempt : string) (level : Z) (s : State)
    (c' : gmap string (pystr * Z)) :
  attempt ≠ "" →
  let out := generate_hint env file challenges cid uid attempt level s in
  cache out.2 = cache s
  ∧ generate_hint env file' challenges cid uid attempt level (with_cache c' s)
    = (out.1, with_cache c' out.2).
Proof.
  intros Hne out. subst out.
  assert (truthy attempt = true) as Hattempt by (by destruct attempt).
  unfold generate_hint, and_not. rewrite Hattempt.
  rewrite personalized_hint_with_cache.
  pose proof (personalized_hint_cache env challenges cid attempt level 0 s)
    as Hp.
  destruct (personalized_hint env challenges cid attempt level 0 s)
    as [[hint|e] s1]; [done|].
  simpl. rewrite generic_hint_with_cache by done.
  pose proof (generic_hint_cache env challenges cid attempt level 1 s1
                Hattempt) as Hg.
  destruct (generic_hint env challenges cid attempt level 1 s1)
    as [[hint|e'] s2]; simpl in *; split; congruence.
Qed.

Lemma hint_for_attempt_bypasses_cache_witness :
  let env := env_at 0 openai school (answers "Use the remainder.")
               empty_file in
  let out := generate_hint env hints_file challenges 3 (Some 7) "print(1)" 1
               fresh in
  cache out.2 = ∅
  ∧ generate_hint env NoHintsFile challenges 3 (Some 7) "print(1)" 1
      (with_cache hint_in_cache fresh)
    = (out.1, with_cache hint_in_cache out.2).
Proof.
  intros env.
  apply (hint_for_attempt_bypasses_cache env hints_file NoHintsFile
           challenges 3 (Some 7) "print(1)" 1 fresh hint_in_cache).
  discriminate.
Defined.

(** The cached hint is not served to a user who sends an attempt. *)
Example hint_for_an_attempt_with_cache :
  (generate_hint (env_at 0 openai school (answers "Use the remainder.")
                    empty_file)
     hints_file challenges 3 (Some 7) "print(1)" 1
     (with_cache hint_in_cache fresh)).1
  = Text "Use the remainder."
  ∧ (generate_hint (env_at 0 openai school (answers "Use the remainder.")
                      empty_file)
       hints_file challenges 3 (Some 7) "" 1
       (with_cache hint_in_cache fresh)).1
    = Text "Count to fifteen first.".
Proof. by vm_compute. Qed.

(** X15: without an attempt, when nothing usable is in the cache and a
    curated hint that is not empty exists, the call returns that hint,
    does not call [generate_text] and puts the hint in the cache. *)
Theorem curated_hint_returned (env : Env) (file : HintsFile)
    (challenges : list Challenge) (cid : Z) (uid : option Z) (level : Z)
    (s : State) (hint : string) :
  cache_miss env s (hint_cache_key cid level) →
  _get_curated_hint file cid level = Some hint →
  hint ≠ "" →
  let out := generate_hint env file challenges cid uid "" level s in
  out.1 = Text hint
  ∧ generate_text_calls out.2 = generate_text_calls s
  ∧ cache out.2 !! hint_cache_key cid level
    = Some (Text hint, now env + CACHE_DURATION).
Proof.
  intros Hmiss Hcur Hne out. subst out.
  unfold generate_hint, and_not. simpl. rewrite Hmiss, Hcur. simpl.
  assert (truthy hint = true) as -> by (by destruct hint).
  split; [done|]. split; [done|]. apply lookup_insert_eq.
Qed.

Lemma curated_hint_returned_witness :
  let env := env_at 0 openai school down empty_file in
  let out := generate_hint env hints_file challenges 3 None "" 1 fresh in
  out.1 = Text "Start with a loop."
  ∧ generate_text_calls out.2 = []
  ∧ cache out.2 !! hint_cache_key 3 1 = Some (Text "Start with a loop.", 86400).
Proof.
  intros env out.
  refine (curated_hint_returned env hints_file challenges 3 None 1 fresh
            "Start with a loop." eq_refl eq_refl _).
  discriminate.
Defined.

Lemma objects_get_missing {A} model (pk_of : A → Z) db k table pk :
  List.filter (λ r, pk_of r =? pk) table = [] →
  ∃ e, objects_get model pk_of db k table pk = Raise e.
Proof.
  intros Hnone. unfold objects_get, round_trip. rewrite Hnone.
  destruct (unavailable db k); simpl; by eauto.
Qed.

(** X16: when the challenge does not exist, and the call is not served
    from the cache or the curated hints, the call returns the fixed hint,
    does not call [generate_text] and leaves the cache as it is. *)
Theorem hint_for_missing_challenge (env : Env) (file : HintsFile)
    (challenges : list Challenge) (cid : Z) (uid : option Z)
    (attempt : string) (level : Z) (s : State) :
  List.filter (λ c, challenge_pk c =? cid) challenges = [] →
  attempt ≠ ""
  ∨ (cache_miss env s (hint_cache_key cid level)
     ∧ when_truthy truthy (_get_curated_hint file cid level) = None) →
  generate_hint env file challenges cid uid attempt level s
  = (Text fallback_hint, s).
Proof.
  intros Hnone Hcase.
  destruct (objects_get_missing "Challenge" challenge_pk (db env) 0
              challenges cid Hnone) as [e0 H0].
  destruct (objects_get_missing "Challenge" challenge_pk (db env) 1
              challenges cid Hnone) as [e1 H1].
  unfold generate_hint, and_not, personalized_hint, generic_hint, bind, lift.
  rewrite H0, H1.
  destruct (truthy attempt) eqn:Hattempt; [done|].
  destruct Hcase as [Hne|[Hmiss Hcur]]; [by destruct attempt|].
  unfold cache_miss in Hmiss. by rewrite Hmiss, Hcur.
Qed.

Lemma hint_for_missing_challenge_witness :
  generate_hint (env_at 0 openai school (answers "Use the remainder.")
                   empty_file)
    hints_file challenges 9 None "print(1)" 1 fresh
  = (Text fallback_hint, fresh).
Proof.
  apply hint_for_missing_challenge; [reflexivity|].
  left. discriminate.
Defined.

Lemma str_int_ne (a b : Z) : a ≠ b → str_int a ≠ str_int b.
Proof. intros Hne Heq. apply Hne. by apply (inj pretty). Qed.

(** X17: adding a curated hint to a hints document succeeds; the hint is
    then found under its challenge and level, and what is found under any
    other challenge or level is what was found before. *)
Theorem added_hint_is_found (hints : list (string * list (string * string)))
    (cid level : Z) (text : string) :
  let added := add_curated_hint (HintsDocument hints) cid level text in
  added.1 = true
  ∧ _get_curated_hint added.2 cid level = Some text
  ∧ ∀ cid' level', (cid', level') ≠ (cid, level) →
      _get_curated_hint added.2 cid' level'
      = _get_curated_hint (HintsDocument hints) cid' level'.
Proof.
  intros added. subst added. split; [done|].
  unfold add_curated_hint, _get_curated_hint. simpl.
  set (content := match dict_get (str_int cid) hints with
                  | Some _ => hints
                  | None => dict_set (str_int cid) [] hints
                  end).
  assert (∀ k, default [] (dict_get k content) = default [] (dict_get k hints))
    as Hcontent.
  { intros k. subst content.
    destruct (dict_get (str_int cid) hints) eqn:Hget; [done|].
    rewrite dict_get_set. destruct (String.eqb (str_int cid) k) eqn:Hk; [|done].
    apply String.eqb_eq in Hk. subst k. by rewrite Hget. }
  split.
  - rewrite dict_get_set_eq. simpl. apply dict_get_set_eq.
  - intros cid' level' Hne.
    destruct (decide (cid' = cid)) as [->|Hcid].
    + rewrite dict_get_set_eq. simpl.
      rewrite dict_get_set_ne
        by (apply str_int_ne; intros ->; by apply Hne).
      by rewrite Hcontent.
    + rewrite dict_get_set_ne by (by apply str_int_ne).
      by rewrite Hcontent.
Qed.

Lemma added_hint_is_found_witness :
  _get_curated_hint hints_file 3 2 = None.
Proof.
  exact (proj2 (proj2 (added_hint_is_found [] 3 1 "Start with a loop."))
           3 2 ltac:(discriminate)).
Defined.

(** X18: [initialize_curated_content] creates the files that are missing
    and touches no other: doing it twice changes nothing more, a file that
    was there is as it was, and a hint or an explanation can be added to a
    file that was missing, which fails before. *)
Theorem initialize_makes_files_usable (files : ExplanationsFile * HintsFile)
    (concept theme age explanation : string) (cid level : Z)
    (text : string) :
  let files' := initialize_curated_content files in
  initialize_curated_content files' = files'
  ∧ (files.1 ≠ NoFile → files'.1 = files.1)
  ∧ (files.2 ≠ NoHintsFile → files'.2 = files.2)
  ∧ (files.1 = NoFile →
     (add_curated_explanation files.1 concept theme age explanation).1
     = false
     ∧ (add_curated_explanation files'.1 concept theme age explanation).1
       = true)
  ∧ (files.2 = NoHintsFile →
     (add_curated_hint files.2 cid level text).1 = false
     ∧ (add_curated_hint files'.2 cid level text).1 = true).
Proof.
  destruct files as [[| |items] [| |hints]]; simpl;
    repeat split; intros; congruence.
Qed.

End HintFacts.

(** ** The difficulty adjuster *)
Module AdjusterFacts.
Import Fixtures Samples MoreSamples.

Example adjust_with_prose :
  adjust_content_difficulty (λ _ _, Ok prose) no_json loops 4
  = [("title", JStr "Loops"); ("description", JStr prose);
     ("original_difficulty", JInt 2); ("difficulty", JInt 4);
     ("adjusted", JBool true)].
Proof. reflexivity. Qed.

(** An answer that is a JSON list has no method [get]. *)
Example adjust_with_a_list :
  assoc "error"
    (adjust_content_difficulty (λ _ _, Ok "[]") (λ _, Ok (JArr [])) loops 4)
  = Some (JStr "'list' object has no attribute 'get'").
Proof. reflexivity. Qed.

(** When the target is the difficulty of the content, the content is
    returned as it is with [adjusted = False], and neither the adapter nor
    the decoder has a say. *)
Lemma adjust_same_difficulty
    (generate generate' : string → Z → outcome string)
    (loads loads' : string → outcome JSON) (content : Content) :
  let result :=
    adjust_content_difficulty generate loads content
      (difficulty_base content) in
  result = adjust_content_difficulty generate' loads' content
             (difficulty_base content)
  ∧ assoc "title" result = Some (JStr (title content))
  ∧ assoc "description" result = Some (JStr (description content))
  ∧ assoc "difficulty" result = Some (JInt (difficulty_base content))
  ∧ assoc "adjusted" result = Some (JBool false).
Proof.
  unfold adjust_content_difficulty. by rewrite Z.eqb_refl.
Qed.

(** X19: whatever the adapter and the decoder do, the result holds a
    title, a description and the flag [adjusted]; when the flag is false,
    the title and the description are the ones of the content. *)
Theorem adjust_always_has_content
    (generate : string → Z → outcome string)
    (loads : string → outcome JSON) (content : Content) (target : Z) :
  let result := adjust_content_difficulty generate loads content target in
  ∃ new_title new_description adjusted,
    assoc "title" result = Some new_title
    ∧ assoc "description" result = Some new_description
    ∧ assoc "adjusted" result = Some (JBool adjusted)
    ∧ (adjusted = false →
       new_title = JStr (title content)
       ∧ new_description = JStr (description content)).
Proof.
  unfold adjust_content_difficulty.
  destruct (difficulty_base content =? target);
    [by eexists _, _, false|].
  destruct (generate _ _) as [response|e]; simpl;
    [|by eexists _, _, false].
  destruct (loads response) as [doc|e]; simpl.
  - unfold json_get.
    destruct doc; simpl; try (by eexists _, _, false).
    by eexists _, _, true.
  - destruct (exn_cls e); simpl;
      try (by eexists _, _, false); by eexists _, _, true.
Qed.

(** X20: when the adapter raises, the result holds the title, the
    description and the difficulty of the content, the text of the
    exception under [error], and [adjusted = False]. *)
Theorem adjust_contains_failure
    (generate : string → Z → outcome string)
    (loads : string → outcome JSON) (content : Content) (target : Z)
    (e : exn) :
  difficulty_base content ≠ target →
  generate (adjust_prompt content target) 800 = Raise e →
  adjust_content_difficulty generate loads content target
  = [("title", JStr (title content));
     ("description", JStr (description content));
     ("difficulty", JInt (difficulty_base content));
     ("error", JStr (exn_str e));
     ("adjusted", JBool false)].
Proof.
  intros Hne Hraise. unfold adjust_content_difficulty.
  apply Z.eqb_neq in Hne. by rewrite Hne, Hraise.
Qed.

Lemma adjust_contains_failure_witness :
  assoc "error"
    (adjust_content_difficulty
       (λ _ _, raise RequestException "Connection refused") no_json loops 4)
  = Some (JStr "Connection refused").
Proof.
  by rewrite (adjust_contains_failure _ no_json loops 4
                (Exn RequestException "Connection refused")).
Defined.

(** X21: when the answer of the adapter is not JSON, it becomes the
    description as it is, under the title of the content, with
    [adjusted = True] and the two difficulties. *)
Theorem adjust_takes_prose
    (generate : string → Z → outcome string)
    (loads : string → outcome JSON) (content : Content) (target : Z)
    (response msg : string) :
  difficulty_base content ≠ target →
  generate (adjust_prompt content target) 800 = Ok response →
  loads response = Raise (Exn JSONDecodeError msg) →
  adjust_content_difficulty generate loads content target
  = [("title", JStr (title content));
     ("description", JStr response);
     ("original_difficulty", JInt (difficulty_base content));
     ("difficulty", JInt target);
     ("adjusted", JBool true)].
Proof.
  intros Hne Hanswer Hloads. unfold adjust_content_difficulty.
  apply Z.eqb_neq in Hne. rewrite Hne, Hanswer. simpl. by rewrite Hloads.
Qed.

Lemma adjust_takes_prose_witness :
  assoc "description"
    (adjust_content_difficulty (λ _ _, Ok prose) no_json loops 4)
  = Some (JStr prose).
Proof.
  by rewrite (adjust_takes_prose _ no_json loops 4 prose "Expecting value").
Defined.

End AdjusterFacts.

(** ** Classification *)
Module ClassifierFacts.
Import Spec Fixtures Samples MoreSamples GeneratorFacts DictFacts.

Lemma unavailable_text_has_no_braces :
  re_search_braces unavailable_text = None.
Proof. reflexivity. Qed.

Lemma transport_failure_text net self prompt max_tokens temp :
  transport_fails net →
  OpenAI_generate_text net self prompt max_tokens temp = Ok unavailable_text
  ∧ Anthropic_generate_text net self prompt max_tokens temp
    = Ok unavailable_text.
Proof.
  intros Hfail.
  unfold OpenAI_generate_text, Anthropic_generate_text, requests_post.
  split;
    match goal with
    | |- context [net ?r] =>
        specialize (Hfail r); destruct (net r) as [why|status body]
    end; try done; simpl; unfold raise_for_status; simpl;
    (replace ((400 <=? status) && (status <? 600)) with true
       by (symmetry; apply andb_true_iff; lia)); done.
Qed.

(** The quotient of doubles [1.0/3] is not a third. *)
Example a_third_as_double :
  float_truediv 1 (float_of_int 3) = 6004799503160661 # 18014398509481984.
Proof. reflexivity. Qed.

Example a_tenth_as_double :
  float_truediv 1 (float_of_int 10) = 3602879701896397 # 36028797018963968.
Proof. reflexivity. Qed.

(** X22: when the transport fails, the classification of the OpenAI and of
    the Anthropic adapter gives every category the same score, the double
    that [1.0/n] is for [n] categories, and gives a score to nothing
    else. *)
Theorem classify_shares_equally_on_failure (ext : Externals) (net : Network)
    (self : ModelAdapter) (content : string) (categories : list string)
    (category : string) :
  transport_fails net →
  let expected :=
    if bool_decide (category ∈ categories)
    then Some (JNum (float_truediv 1
                       (float_of_int (Z.of_nat (length categories)))))
    else None in
  dict_get category (OpenAI_classify_content ext net self content categories)
  = expected
  ∧ dict_get category
      (Anthropic_classify_content ext net self content categories)
    = expected.
Proof.
  intros Hfail expected. subst expected.
  unfold OpenAI_classify_content, Anthropic_classify_content, classify_with.
  destruct (transport_failure_text net self
              (classify_prompt content categories) 100 (1 # 10) Hfail)
    as [-> ->].
  unfold mbind, outcome_bind. rewrite unavailable_text_has_no_braces.
  unfold equal_share. by rewrite dict_get_comprehension.
Qed.

Lemma classify_shares_equally_on_failure_witness :
  dict_get "safe"
    (OpenAI_classify_content externals down
       {| adapter_cls := OpenAIAdapter; api_key := "k"; model := "m" |}
       "Hello" ["safe"; "unsafe"; "spam"])
  = Some (JNum (6004799503160661 # 18014398509481984)).
Proof.
  refine (proj1 (classify_shares_equally_on_failure externals down _ "Hello"
                   ["safe"; "unsafe"; "spam"] "safe" _)).
  by intros r.
Defined.

End ClassifierFacts.

(** ** The chat *)
Module ChatFacts.
Import Spec Fixtures Samples MoreSamples GeneratorFacts.

Lemma last_five_twice {A} (history : list A) :
  last_five (last_five history) = last_five history.
Proof.
  unfold last_five. rewrite length_drop.
  replace (length history - (length history - 5) - 5)%nat with 0%nat by lia.
  done.
Qed.

(** X23: only the last five entries of the chat history count: the call
    does the same with the whole history and with its last five
    entries. *)
Theorem chat_reads_last_five (env : Env) (message : string)
    (group : option (option string * option string))
    (name : option string) (history : list ChatEntry) (s : State) :
  generate_chat_response env message
    {| user_age_group := group; display_name := name;
       chat_history := Some history |} s
  = generate_chat_response env message
      {| user_age_group := group; display_name := name;
         chat_history := Some (last_five history) |} s.
Proof.
  unfold generate_chat_response, chat_prompt. simpl.
  by rewrite last_five_twice.
Qed.

(** X24: the adapter is fetched outside the [try]: when it cannot be
    obtained, the call raises the exception of the construction. *)
Theorem chat_raises_without_adapter (env : Env) (message : string)
    (user_data : UserData) (s : State) (e : exn) (p : Process) :
  get_current_adapter (ext env) (settings env) (process s) = (Raise e, p) →
  (generate_chat_response env message user_data s).1 = Raise e.
Proof.
  intros Hadapter. unfold generate_chat_response, bind, current_adapter.
  by rewrite Hadapter.
Qed.

Lemma chat_raises_without_adapter_witness :
  (generate_chat_response (env_at 0 keyless school down empty_file)
     "What is a loop?" girl fresh).1
  = Raise (Exn ValueError "OpenAI API key not found").
Proof.
  apply (chat_raises_without_adapter _ _ _ _ _
           {| environ := ∅; _current_adapter := None |}).
  by vm_compute.
Defined.

(** X25: when the transport of an adapter that goes over HTTP fails, the
    chat answers with the fixed text of the adapter and reports a
    success. *)
Theorem chat_reports_success_on_failure (env : Env) (message : string)
    (user_data : UserData) (s : State) (adapter : ModelAdapter)
    (p : Process) :
  get_current_adapter (ext env) (settings env) (process s)
  = (Ok adapter, p) →
  over_http adapter →
  transport_fails (net env) →
  (generate_chat_response env message user_data s).1
  = Ok [("message", JStr unavailable_text); ("success", JBool true)].
Proof.
  intros Hadapter Hhttp Hfail.
  unfold generate_chat_response, bind, current_adapter. rewrite Hadapter.
  unfold adapter_generate_text.
  by rewrite http_adapter_contains_failure.
Qed.

Lemma chat_reports_success_on_failure_witness :
  (generate_chat_response (env_at 0 openai school down empty_file)
     "What is a loop?" girl fresh).1
  = Ok [("message", JStr unavailable_text); ("success", JBool true)].
Proof.
  refine (chat_reports_success_on_failure _ _ _ _
            {| adapter_cls := OpenAIAdapter; api_key := "sk-test";
               model := "gpt-3.5-turbo" |}
            {| environ := {["OPENAI_API_KEY" := "sk-test"]};
               _current_adapter :=
                 Some {| adapter_cls := OpenAIAdapter; api_key := "sk-test";
                         model := "gpt-3.5-turbo" |} |}
            _ _ _).
  - by vm_compute.
  - by split.
  - by intros r.
Defined.

End ChatFacts.
